(** * ATS Hub resume analyzer: a model of [app.py] and its checked properties

    The program is a single Streamlit script.  Its [main] function resolves a
    credential, configures the model client, renders two input widgets and a
    button and, when the button is pressed, runs the analysis pipeline
    (PDF text extraction, prompt construction, model call, JSON decoding,
    display of three result fields) under a [try / except / finally] block
    that maintains the [processing] flag of the session.

    The development is organised as follows.
    - [Py]        : the Python values the script manipulates ([str], [dict],
                    ...), truthiness, [dict.get] and [str.join].
    - [Json]      : the decoder behind [json.loads] on a [str].
    - [St]        : the observable effects of a script run (a log of
                    Streamlit calls and helper calls), the session state, and
                    a small monad with Python's completion kinds (normal,
                    [return], raised exception) and [try/except/finally].
    - [App]       : [init_session_state], [get_api_key] and [main].
    - [Obs]       : what is observed of a run (messages displayed, output
                    signals, helper calls) and the error taxonomy.
    - [Samples]   : concrete answers, sessions and states.
    - [Sessions]  : sessions of several runs, further sample inputs.
    - [JsonFacts] : the decoder never exhausts its fuel; what its limits
                    change and what they leave alone.
    - [RunFacts]  : the equations that describe a run block by block.
    The properties of the script come last.

    Modelling conventions.  A Python [str] is a list of Unicode code points.
    Integers are unbounded.  A float literal is kept as the exact decimal it
    denotes; the truth test on it is decided exactly, and its [str] is an
    input of the model.  The two limits of the interpreter that [json.loads]
    can hit (nesting depth, number of digits of an integer literal) are
    inputs of a run, as is the configuration of the secret store.  The
    functions imported from [helper] and the Streamlit widgets are inputs of
    the model: a helper returns a text or raises, and an exception records
    whether its class derives from [Exception]. *)

From Stdlib Require Import List NArith ZArith Bool String Ascii Lia DecimalString.
Import ListNotations.

Set Implicit Arguments.

(* ================================================================= *)
(** ** Python values *)

Module Py.

(** A [str] is a sequence of code points. *)
Definition pystr := list N.

(** ASCII literals. *)
Definition u (s : string) : pystr := map N_of_ascii (list_ascii_of_string s).

Fixpoint str_eqb (a b : pystr) : bool :=
  match a, b with
  | [], [] => true
  | x :: a', y :: b' => (x =? y)%N && str_eqb a' b'
  | _, _ => false
  end.

(** A float as produced by the decoder: one of the three constants, or the
    decimal [(-1)^negative * digits * 10^exp10] that [float()] then rounds. *)
Inductive pyfloat :=
| FNaN
| FInf (negative : bool)
| FDec (negative : bool) (digits : N) (exp10 : Z).

(** [float(lexeme) == 0.0].  Conversion rounds to nearest, ties to even, so
    the result is zero exactly when the decimal is at most half of the
    smallest subnormal, [2^-1075]. *)
Definition float_is_zero (f : pyfloat) : bool :=
  match f with
  | FNaN | FInf _ => false
  | FDec _ m e =>
      (m =? 0)%N ||
      ((e <? 0)%Z && (Z.of_N m * 2 ^ 1075 <=? 10 ^ (- e))%Z)
  end.

Unset Elimination Schemes.
Inductive value :=
| VNone
| VBool (b : bool)
| VInt (z : Z)
| VFloat (f : pyfloat)
| VStr (s : pystr)
| VList (items : list value)
| VDict (entries : list (pystr * value)).
Set Elimination Schemes.

(** A [dict] keeps its keys unique and in insertion order. *)
Definition dict := list (pystr * value).

(** [bool(v)] *)
Definition truthy (v : value) : bool :=
  match v with
  | VNone => false
  | VBool b => b
  | VInt z => negb (z =? 0)%Z
  | VFloat f => negb (float_is_zero f)
  | VStr [] => false
  | VStr (_ :: _) => true
  | VList [] => false
  | VList (_ :: _) => true
  | VDict [] => false
  | VDict (_ :: _) => true
  end.

Fixpoint dict_lookup (d : dict) (k : pystr) : option value :=
  match d with
  | [] => None
  | (k', v) :: d' => if str_eqb k' k then Some v else dict_lookup d' k
  end.

(** [d[k] = v] *)
Fixpoint dict_set (d : dict) (k : pystr) (v : value) : dict :=
  match d with
  | [] => [(k, v)]
  | (k', v') :: d' =>
      if str_eqb k' k then (k', v) :: d' else (k', v') :: dict_set d' k v
  end.

(** [d.get(k, default)] *)
Definition dict_get (d : dict) (k : pystr) (default : value) : value :=
  match dict_lookup d k with
  | Some v => v
  | None => default
  end.

(** [sep.join(parts)] for a list of strings. *)
Fixpoint join (sep : pystr) (parts : list pystr) : pystr :=
  match parts with
  | [] => []
  | [p] => p
  | p :: rest => p ++ sep ++ join sep rest
  end.

(** The items of a list when every one of them is a [str]. *)
Fixpoint all_str (items : list value) : option (list pystr) :=
  match items with
  | [] => Some []
  | VStr s :: rest =>
      match all_str rest with
      | Some l => Some (s :: l)
      | None => None
      end
  | _ :: _ => None
  end.

(** [sep.join(v)] for an arbitrary value: a string is iterated character by
    character, a dict by its keys, a list must hold strings only; anything
    else is a [TypeError], rendered here as [None]. *)
Definition join_value (sep : pystr) (v : value) : option pystr :=
  match v with
  | VStr s => Some (join sep (map (fun c => [c]) s))
  | VList items =>
      match all_str items with
      | Some parts => Some (join sep parts)
      | None => None
      end
  | VDict d => Some (join sep (map fst d))
  | VNone | VBool _ | VInt _ | VFloat _ => None
  end.

(** A [str] can be encoded as UTF-8 unless it holds a surrogate code point
    (left alone: the decoder joins the valid pairs). *)
Definition is_surrogate (c : N) : bool := (0xD800 <=? c)%N && (c <=? 0xDFFF)%N.

Definition encodable (s : pystr) : bool := forallb (fun c => negb (is_surrogate c)) s.

(** [str(z)] for an [int]. *)
Definition str_of_int (z : Z) : pystr :=
  u (DecimalString.NilZero.string_of_int (Z.to_int z)).

End Py.

(* ================================================================= *)
(** ** [json.loads] *)

Module Json.
Import Py.
Local Open Scope N_scope.

Definition is_ws (c : N) : bool :=
  (c =? 32) || (c =? 9) || (c =? 10) || (c =? 13).

Fixpoint skip_ws (s : pystr) : pystr :=
  match s with
  | c :: r => if is_ws c then skip_ws r else s
  | [] => []
  end.

Definition is_digit (c : N) : bool := (48 <=? c) && (c <=? 57).

Definition hex_val (c : N) : option N :=
  if is_digit c then Some (c - 48)
  else if (97 <=? c) && (c <=? 102) then Some (c - 87)
  else if (65 <=? c) && (c <=? 70) then Some (c - 55)
  else None.

Definition hex4 (a b c d : N) : option N :=
  match hex_val a, hex_val b, hex_val c, hex_val d with
  | Some x, Some y, Some z, Some w => Some (((x * 16 + y) * 16 + z) * 16 + w)
  | _, _, _, _ => None
  end.

Definition is_high_surrogate (c : N) : bool := (0xD800 <=? c) && (c <=? 0xDBFF).
Definition is_low_surrogate (c : N) : bool := (0xDC00 <=? c) && (c <=? 0xDFFF).
Definition join_surrogates (hi lo : N) : N :=
  0x10000 + ((hi - 0xD800) * 0x400 + (lo - 0xDC00)).

(** The single-character escapes after a backslash. *)
Definition simple_escape (c : N) : option N :=
  if c =? 34 then Some 34        (* quotation mark *)
  else if c =? 92 then Some 92   (* reverse solidus *)
  else if c =? 47 then Some 47   (* solidus *)
  else if c =? 98 then Some 8    (* b: backspace *)
  else if c =? 102 then Some 12  (* f: form feed *)
  else if c =? 110 then Some 10  (* n: line feed *)
  else if c =? 114 then Some 13  (* r: carriage return *)
  else if c =? 116 then Some 9   (* t: tab *)
  else None.

Definition prepend (c : N) (r : option (pystr * pystr)) : option (pystr * pystr) :=
  match r with
  | Some (str, rest) => Some (c :: str, rest)
  | None => None
  end.

(** [scanstring], strict mode, started after the opening quote: the decoded
    string and the input after the closing quote. *)
Fixpoint scanstring (s : pystr) : option (pystr * pystr) :=
  match s with
  | [] => None
  | c :: r =>
      if c =? 34 then Some ([], r)
      else if c =? 92 then
        match r with
        | [] => None
        | e :: r1 =>
            if e =? 117 then
              match r1 with
              | h1 :: h2 :: h3 :: h4 :: r2 =>
                  match hex4 h1 h2 h3 h4 with
                  | None => None
                  | Some c1 =>
                      if is_high_surrogate c1 then
                        match r2 with
                        | b :: x :: g1 :: g2 :: g3 :: g4 :: r3 =>
                            if (b =? 92) && (x =? 117) then
                              match hex4 g1 g2 g3 g4 with
                              | None => None
                              | Some c2 =>
                                  if is_low_surrogate c2
                                  then prepend (join_surrogates c1 c2) (scanstring r3)
                                  else prepend c1 (scanstring r2)
                              end
                            else prepend c1 (scanstring r2)
                        | _ => prepend c1 (scanstring r2)
                        end
                      else prepend c1 (scanstring r2)
                  end
              | _ => None
              end
            else
              match simple_escape e with
              | Some c' => prepend c' (scanstring r1)
              | None => None
              end
        end
      else if c <=? 31 then None
      else prepend c (scanstring r)
  end.

Fixpoint span_digits (s : pystr) : pystr * pystr :=
  match s with
  | c :: r =>
      if is_digit c then let (ds, r') := span_digits r in (c :: ds, r')
      else ([], s)
  | [] => ([], [])
  end.

Definition digits_value (ds : pystr) : N :=
  fold_left (fun acc c => acc * 10 + (c - 48)) ds 0.

Definition signed (negative : bool) (n : N) : Z :=
  if negative then (- Z.of_N n)%Z else Z.of_N n.

(** A number literal: an [int] with the count of its digits, or a [float]. *)
Inductive literal :=
| IntLit (digits : nat) (z : Z)
| FloatLit (f : pyfloat).

(** The number grammar: an optional minus sign; an integer part that is
    either a single 0 or a non-zero digit followed by digits; an optional
    fraction (a dot and at least one digit); an optional exponent (e or E,
    an optional sign, at least one digit).  An integer part alone gives an
    [int], a literal with a fraction or an exponent a [float].  For an
    [int] the number of its digits is kept: the conversion to [int] is
    subject to the interpreter's limit on it. *)
Definition match_number (s : pystr) : option (literal * pystr) :=
  let (neg, s1) :=
    match s with
    | c :: r => if c =? 45 then (true, r) else (false, s)
    | [] => (false, s)
    end in
  let int_part :=
    match s1 with
    | c :: r =>
        if (49 <=? c) && (c <=? 57)
        then let (ds, r') := span_digits r in Some (c :: ds, r')
        else if c =? 48 then Some ([c], r)
        else None
    | [] => None
    end in
  match int_part with
  | None => None
  | Some (ints, r1) =>
      let (frac, r2) :=
        match r1 with
        | d :: f :: _ =>
            if (d =? 46) && is_digit f then span_digits (tl r1) else ([], r1)
        | _ => ([], r1)
        end in
      let expo :=
        match r2 with
        | e :: r3 =>
            if (e =? 101) || (e =? 69) then
              let (eneg, r4) :=
                match r3 with
                | sg :: r' =>
                    if sg =? 45 then (true, r')
                    else if sg =? 43 then (false, r')
                    else (false, r3)
                | [] => (false, r3)
                end in
              let (es, r5) := span_digits r4 in
              match es with
              | [] => None
              | _ :: _ => Some (signed eneg (digits_value es), r5)
              end
            else None
        | [] => None
        end in
      match frac, expo with
      | [], None => Some (IntLit (List.length ints) (signed neg (digits_value ints)), r2)
      | _, None =>
          Some (FloatLit (FDec neg (digits_value (ints ++ frac))
                             (- Z.of_nat (List.length frac))%Z), r2)
      | _, Some (e, r5) =>
          Some (FloatLit (FDec neg (digits_value (ints ++ frac))
                             (e - Z.of_nat (List.length frac))%Z), r5)
      end
  end.

(** [s] starts with [p]: the remainder. *)
Fixpoint strip_prefix (p s : pystr) : option pystr :=
  match p, s with
  | [], _ => Some s
  | a :: p', b :: s' => if a =? b then strip_prefix p' s' else None
  | _ :: _, [] => None
  end.

(** The named constants, tried on the first character before numbers. *)
Definition match_constant (s : pystr) : option (value * pystr) :=
  match s with
  | [] => None
  | c :: _ =>
      let try (lit : string) (v : value) :=
        match strip_prefix (u lit) s with
        | Some rest => Some (v, rest)
        | None => None
        end in
      if c =? 110 then try "null"%string VNone
      else if c =? 116 then try "true"%string (VBool true)
      else if c =? 102 then try "false"%string (VBool false)
      else if c =? 78 then try "NaN"%string (VFloat FNaN)
      else if c =? 73 then try "Infinity"%string (VFloat (FInf false))
      else if c =? 45 then try "-Infinity"%string (VFloat (FInf true))
      else None
  end.

(** Why [json.loads] raises: the text is not JSON ([JSONDecodeError]); the
    text nests deeper than the interpreter allows ([RecursionError]); an
    integer literal has more digits than the interpreter converts
    ([ValueError]). *)
Inductive failure :=
| NotJSON
| TooDeep
| IntTooLong.

Inductive scan (A : Type) :=
| Scanned (a : A) (rest : pystr)
| Failed (f : failure)
| OutOfFuel.
Arguments Failed {A}.
Arguments OutOfFuel {A}.

(** The limit on the digits of an integer literal, when there is one. *)
Definition exceeds (max_digits : option nat) (digits : nat) : bool :=
  match max_digits with
  | Some m => (m <? digits)%nat
  | None => false
  end.

(** The value of a number literal. *)
Definition number (max_digits : option nat) (o : option (literal * pystr)) : scan value :=
  match o with
  | Some (IntLit digits z, rest) =>
      if exceeds max_digits digits then Failed IntTooLong else Scanned (VInt z) rest
  | Some (FloatLit f, rest) => Scanned (VFloat f) rest
  | None => Failed NotJSON
  end.

(** [scan_once], with the loops of [JSONArray] and [JSONObject].  [depth]
    is the number of nested arrays and objects the interpreter still allows:
    entering one more when none is left is a [RecursionError].  The two
    loops are entered at the first character of an element, respectively of
    a key, after the whitespace that precedes it was skipped. *)
Fixpoint scan_once (fuel depth : nat) (max_digits : option nat) (s : pystr) : scan value :=
  match fuel with
  | O => OutOfFuel
  | S n =>
      match s with
      | [] => Failed NotJSON
      | c :: r =>
          if c =? 34 then
            match scanstring r with
            | Some (str, rest) => Scanned (VStr str) rest
            | None => Failed NotJSON
            end
          else if c =? 123 then
            match depth with
            | O => Failed TooDeep
            | S depth' =>
                match skip_ws r with
                | c' :: r' =>
                    if c' =? 125 then Scanned (VDict []) r'
                    else object_members n depth' max_digits (skip_ws r) []
                | [] => Failed NotJSON
                end
            end
          else if c =? 91 then
            match depth with
            | O => Failed TooDeep
            | S depth' =>
                match skip_ws r with
                | c' :: r' =>
                    if c' =? 93 then Scanned (VList []) r'
                    else array_items n depth' max_digits (skip_ws r) []
                | [] => Failed NotJSON
                end
            end
          else
            match match_constant s with
            | Some (v, rest) => Scanned v rest
            | None => number max_digits (match_number s)
            end
      end
  end

with array_items (fuel depth : nat) (max_digits : option nat) (s : pystr)
       (acc : list value) : scan value :=
  match fuel with
  | O => OutOfFuel
  | S n =>
      match scan_once n depth max_digits s with
      | Scanned v rest =>
          match skip_ws rest with
          | c :: r =>
              if c =? 93 then Scanned (VList (rev (v :: acc))) r
              else if c =? 44 then array_items n depth max_digits (skip_ws r) (v :: acc)
              else Failed NotJSON
          | [] => Failed NotJSON
          end
      | Failed f => Failed f
      | OutOfFuel => OutOfFuel
      end
  end

with object_members (fuel depth : nat) (max_digits : option nat) (s : pystr)
       (acc : dict) : scan value :=
  match fuel with
  | O => OutOfFuel
  | S n =>
      match s with
      | q :: r =>
          if q =? 34 then
            match scanstring r with
            | None => Failed NotJSON
            | Some (key, r1) =>
                match skip_ws r1 with
                | colon :: r2 =>
                    if colon =? 58 then
                      match scan_once n depth max_digits (skip_ws r2) with
                      | Scanned v rest =>
                          match skip_ws rest with
                          | c :: r3 =>
                              if c =? 125
                              then Scanned (VDict (dict_set acc key v)) r3
                              else if c =? 44
                              then object_members n depth max_digits (skip_ws r3)
                                     (dict_set acc key v)
                              else Failed NotJSON
                          | [] => Failed NotJSON
                          end
                      | Failed f => Failed f
                      | OutOfFuel => OutOfFuel
                      end
                    else Failed NotJSON
                | [] => Failed NotJSON
                end
            end
          else Failed NotJSON
      | [] => Failed NotJSON
      end
  end.

(** Enough fuel for any input: each call consumes a character before the
    next one is made (see [decode_total]). *)
Definition fuel_for (s : pystr) : nat := 2 * List.length s + 1.

(** [JSONDecoder.decode] after the byte-order-mark test of [json.loads]:
    leading whitespace, one value, trailing whitespace, end of input. *)
Definition decode (depth : nat) (max_digits : option nat) (s : pystr) : scan value :=
  match s with
  | 0xFEFF :: _ => Failed NotJSON
  | _ =>
      match scan_once (fuel_for s) depth max_digits (skip_ws s) with
      | Scanned v rest =>
          match skip_ws rest with
          | [] => Scanned v []
          | _ :: _ => Failed NotJSON
          end
      | Failed f => Failed f
      | OutOfFuel => OutOfFuel
      end
  end.

Inductive loaded :=
| Decoded (v : value)
| Raised (f : failure).

(** [json.loads(s)] under the interpreter's limits. *)
Definition json_loads (depth : nat) (max_digits : option nat) (s : pystr) : loaded :=
  match decode depth max_digits s with
  | Scanned v _ => Decoded v
  | Failed f => Raised f
  | OutOfFuel => Raised NotJSON
  end.

(** The JSON grammar alone: what [json.loads] accepts when no limit
    interferes.  A text cannot nest deeper than it is long. *)
Definition valid_json (s : pystr) : bool :=
  match json_loads (List.length s) None s with
  | Decoded _ => true
  | Raised _ => false
  end.

(** Nesting room [depth'] that suffices for [s] when [depth] did: more than
    [depth], or as much as the text is long. *)
Definition roomy (depth depth' : nat) (s : pystr) : Prop :=
  (depth <= depth')%nat \/ (List.length s <= depth')%nat.

(** A limit on digits [lim'] that lets through whatever [lim] does. *)
Definition laxer (lim lim' : option nat) : Prop :=
  forall n, exceeds lim' n = true -> exceeds lim n = true.

End Json.

(* ================================================================= *)
(** ** Effects of a script run *)

Module St.
Import Py.

(** The uploaded resume: an opaque payload. *)
Record UploadedFile := { file_name : pystr; file_bytes : list N }.

(** Code called by the script but defined outside [app.py]. *)
Inductive helper :=
| H_secrets
| H_configure_genai
| H_extract_pdf_text
| H_prepare_prompt
| H_get_gemini_response.

(** An exception raised by such code: whether its class derives from
    [Exception] (as opposed to [BaseException] only, like
    [KeyboardInterrupt]) and the text [str(e)]. *)
Record raised := { derives_Exception : bool; exc_str : pystr }.

Inductive outcome (A : Type) :=
| Returns (a : A)
| Raises (e : raised).
Arguments Raises {A}.

(** The exceptions that can be in flight inside [main]: those of outside
    code, those of [json.loads] ([JSONDecodeError], and [RecursionError] and
    [ValueError] when a limit of the interpreter is hit), of a missing
    attribute, of [str.join], and of Streamlit's [st.metric] (an unsupported
    type) and [st.write] / [st.metric] (a text that cannot be encoded). *)
Inductive exn :=
| External (h : helper) (e : raised)
| JSONDecodeError
| RecursionError
| ValueError_int_digits
| AttributeError (obj : value) (attr : pystr)
| TypeError_join (arg : value)
| TypeError_metric (arg : value)
| UnicodeEncodeError (text : pystr)
| AttributeError_session (attr : pystr).

(** [isinstance(e, Exception)] *)
Definition is_Exception (e : exn) : bool :=
  match e with
  | External _ r => derives_Exception r
  | JSONDecodeError | RecursionError | ValueError_int_digits
  | AttributeError _ _ | TypeError_join _ | TypeError_metric _
  | UnicodeEncodeError _ | AttributeError_session _ => true
  end.

Definition is_JSONDecodeError (e : exn) : bool :=
  match e with
  | JSONDecodeError => true
  | _ => false
  end.

(** A displayed text: a literal, or an f-string [f"<prefix>{str(e)}"]. *)
Inductive message :=
| Text (s : pystr)
| TextExn (prefix : pystr) (e : exn).

(** What a run does that can be observed from outside, in order. *)
Inductive event :=
| st_error (m : message)
| st_warning (m : pystr)
| st_success (m : pystr)
| st_metric (label : pystr) (v : value)
| st_subheader (s : pystr)
| st_title (s : pystr)
| st_write (v : value)
| st_text_area (label : pystr)
| st_file_uploader (label : pystr)
| st_button (label : pystr) (disabled : bool)
| sidebar_enter
| sidebar_exit
| spinner_enter (text : pystr)
| spinner_exit
| set_processing (b : bool)
| call_configure_genai (api_key : value)
| call_extract_pdf_text (f : UploadedFile)
| call_prepare_prompt (resume_text jd : pystr)
| call_get_gemini_response (prompt : pystr).

(** Everything outside the script that one run of it depends on.  The four
    functions imported from [helper] are parameters: nothing is assumed of
    them beyond their arity, and each call returns or raises. *)
Record World := {
  (** [st.secrets["GOOGLE_API_KEY"]]: the stored value, or the exception
      raised when the store or the key is missing. *)
  secrets_GOOGLE_API_KEY : outcome value;
  (** The entry of the optional [.env] file, if the file and the key exist. *)
  dotenv_GOOGLE_API_KEY : option pystr;
  configure_genai : value -> outcome unit;
  extract_pdf_text : UploadedFile -> outcome pystr;
  prepare_prompt : pystr -> pystr -> outcome pystr;
  get_gemini_response : pystr -> outcome pystr;
  (** What the widgets return in this run. *)
  text_area_input : pystr;
  file_uploader_input : option UploadedFile;
  button_pressed : bool -> bool;
  (** The interpreter.  [json.loads] may nest [base_nesting] levels and
      [nesting_spare] more before a [RecursionError]; the digits of an
      integer literal are unlimited ([None]) or limited to
      [base_int_digits] and [Some] more, the smallest limit the interpreter
      lets one set; [str_of_float] is [str] on a float. *)
  nesting_spare : nat;
  int_digits_spare : option nat;
  str_of_float : pyfloat -> pystr
}.

(** A lower bound on the nesting [json.loads] has room for (modelling
    assumption), and the interpreter's least limit on integer digits. *)
Definition base_nesting : nat := 8.
Definition base_int_digits : nat := 640.

Definition nesting_limit (W : World) : nat := base_nesting + nesting_spare W.

Definition int_digits_limit (W : World) : option nat :=
  match int_digits_spare W with
  | Some n => Some (base_int_digits + n)
  | None => None
  end.

(** What persists between runs: the session's [processing] entry (absent
    before the first run) and the process environment variable. *)
Record state := {
  session_processing : option bool;
  environ_GOOGLE_API_KEY : option pystr
}.

(** How a block of statements ends. *)
Inductive completion (A : Type) :=
| Normal (a : A)
| Return_
| Raise (e : exn).
Arguments Return_ {A}.
Arguments Raise {A}.

Definition M (A : Type) : Type := state -> completion A * state * list event.

Definition ret {A} (a : A) : M A := fun s => (Normal a, s, []).

Definition bind {A B} (m : M A) (k : A -> M B) : M B :=
  fun s =>
    match m s with
    | (Normal a, s1, l1) => let '(c, s2, l2) := k a s1 in (c, s2, l1 ++ l2)
    | (Return_, s1, l1) => (Return_, s1, l1)
    | (Raise e, s1, l1) => (Raise e, s1, l1)
    end.

Definition emit (ev : event) : M unit := fun s => (Normal tt, s, [ev]).
Definition raise {A} (e : exn) : M A := fun s => (Raise e, s, []).
Definition return_ {A} : M A := fun s => (Return_, s, []).

(** [try: body  except <class> as e: handler e] *)
Definition try_except {A} (catches : exn -> bool) (body : M A) (handler : exn -> M A) : M A :=
  fun s =>
    match body s with
    | (Raise e, s1, l1) =>
        if catches e
        then let '(c, s2, l2) := handler e s1 in (c, s2, l1 ++ l2)
        else (Raise e, s1, l1)
    | r => r
    end.

(** [try: body  finally: cleanup]: the cleanup runs however the body ends,
    and the body's completion stands unless the cleanup itself returns or
    raises. *)
Definition try_finally {A} (body : M A) (cleanup : M unit) : M A :=
  fun s =>
    let '(c, s1, l1) := body s in
    match cleanup s1 with
    | (Normal _, s2, l2) => (c, s2, l1 ++ l2)
    | (Return_, s2, l2) => (Return_, s2, l1 ++ l2)
    | (Raise e, s2, l2) => (Raise e, s2, l1 ++ l2)
    end.

(** [with cm: body] for a context manager that does not swallow exceptions. *)
Definition with_block {A} (enter leave : event) (body : M A) : M A :=
  bind (emit enter) (fun _ => try_finally body (emit leave)).

(** A function body whose [return] statements carry no value. *)
Definition def (body : M unit) : M unit :=
  fun s =>
    match body s with
    | (Return_, s1, l1) => (Normal tt, s1, l1)
    | r => r
    end.

(** A call of outside code: the call is logged, then it returns or raises. *)
Definition invoke {A} (h : helper) (ev : event) (o : outcome A) : M A :=
  fun s =>
    match o with
    | Returns a => (Normal a, s, [ev])
    | Raises e => (Raise (External h e), s, [ev])
    end.

Declare Scope py_scope.
Delimit Scope py_scope with py.
Notation "x <- c ;; k" := (bind c (fun x => k))
  (at level 61, c at next level, right associativity) : py_scope.
Notation "c ;; k" := (bind c (fun _ => k))
  (at level 61, right associativity) : py_scope.

End St.

(* ================================================================= *)
(** ** The script [app.py] *)

Module App.
Import Py Json St.
Local Open Scope py_scope.

(** *** Session state, environment, library calls *)

(** [st.session_state.processing = b] *)
Definition write_processing (b : bool) : M unit :=
  fun s =>
    (Normal tt,
     {| session_processing := Some b;
        environ_GOOGLE_API_KEY := environ_GOOGLE_API_KEY s |},
     [set_processing b]).

(** [st.session_state.processing] *)
Definition read_processing : M bool :=
  fun s =>
    match session_processing s with
    | Some b => (Normal b, s, [])
    | None => (Raise (AttributeError_session (u "processing")), s, [])
    end.

(** [load_dotenv()]: a variable of the file is exported unless the
    environment already defines it. *)
Definition load_dotenv (W : World) : M unit :=
  fun s =>
    match environ_GOOGLE_API_KEY s with
    | Some _ => (Normal tt, s, [])
    | None =>
        (Normal tt,
         {| session_processing := session_processing s;
            environ_GOOGLE_API_KEY := dotenv_GOOGLE_API_KEY W |},
         [])
    end.

(** [os.getenv("GOOGLE_API_KEY")] *)
Definition os_getenv : M value :=
  fun s =>
    (Normal match environ_GOOGLE_API_KEY s with
            | Some v => VStr v
            | None => VNone
            end, s, []).

(** What Streamlit exports to the environment for a top-level secret: the
    [str] of a value whose type is exactly [str], [int] or [float]; nothing
    for a boolean, a table or an array. *)
Definition exported (W : World) (v : value) : option pystr :=
  match v with
  | VStr s => Some s
  | VInt z => Some (str_of_int z)
  | VFloat f => Some (str_of_float W f)
  | VNone | VBool _ | VList _ | VDict _ => None
  end.

(** [st.secrets["GOOGLE_API_KEY"]]: when the store holds the key, reading
    it also sets the environment variable of the same name. *)
Definition st_secrets (W : World) : M value :=
  fun s =>
    match secrets_GOOGLE_API_KEY W with
    | Returns v =>
        (Normal v,
         match exported W v with
         | Some text =>
             {| session_processing := session_processing s;
                environ_GOOGLE_API_KEY := Some text |}
         | None => s
         end, [])
    | Raises e => (Raise (External H_secrets e), s, [])
    end.

(** A value Streamlit can send to the browser: a text must be encodable. *)
Definition displayable (v : value) : bool :=
  match v with
  | VStr s => encodable s
  | _ => true
  end.

(** The text whose encoding fails. *)
Definition text_of (v : value) : pystr :=
  match v with
  | VStr s => s
  | _ => []
  end.

(** [st.write(value)] *)
Definition write (v : value) : M unit :=
  if displayable v then emit (st_write v) else raise (UnicodeEncodeError (text_of v)).

(** [st.metric(label, value)]: the value must be an [int], a [float], a
    [str] or [None]; anything else is a [TypeError]. *)
Definition metric_accepts (v : value) : bool :=
  match v with
  | VNone | VBool _ | VInt _ | VFloat _ | VStr _ => true
  | VList _ | VDict _ => false
  end.

Definition metric (label : pystr) (v : value) : M unit :=
  if metric_accepts v then
    if displayable v then emit (st_metric label v)
    else raise (UnicodeEncodeError (text_of v))
  else raise (TypeError_metric v).

(** [obj.get(key, default)]: only a dict has the method. *)
Definition get (obj : value) (key : pystr) (default : value) : M value :=
  match obj with
  | VDict d => ret (dict_get d key default)
  | _ => raise (AttributeError obj (u "get"))
  end.

(** [sep.join(v)] *)
Definition str_join (sep : pystr) (v : value) : M pystr :=
  match join_value sep v with
  | Some s => ret s
  | None => raise (TypeError_join v)
  end.

(** The exception [json.loads] raises. *)
Definition exn_of (f : failure) : exn :=
  match f with
  | NotJSON => JSONDecodeError
  | TooDeep => RecursionError
  | IntTooLong => ValueError_int_digits
  end.

(** [json.loads(response)] *)
Definition loads (W : World) (response : pystr) : M value :=
  match json_loads (nesting_limit W) (int_digits_limit W) response with
  | Decoded v => ret v
  | Raised f => raise (exn_of f)
  end.

(** *** Literals of the script *)

Definition nl : pystr := [10%N].

Definition msg_no_api_key := u "API Key not found. Please check your configuration.".
Definition msg_configure_failed := u "Failed to configure API: ".
Definition msg_no_jd := u "Please provide a job description.".
Definition msg_no_resume := u "Please upload a resume in PDF format.".
Definition msg_parse_error := u "Error parsing response. Please try again.".
Definition msg_error_occurred := u "An error occurred: ".
Definition msg_complete : pystr := 0x2728%N :: u " Analysis Complete!".
Definition msg_spinner : pystr := 0x1F4CA%N :: u " Analyzing your resume...".
Definition msg_no_keywords := u "No critical missing keywords found!".
Definition msg_no_summary := u "No summary available".
Definition sidebar_title : pystr := 0x1F3E1%N :: u " ATS Hub".
Definition page_title : pystr := 0x1F4C4%N :: u " ATS Hub Resume Analyzer".
Definition about_text : pystr :=
  nl ++ u "        ATS Hub helps you:" ++
  nl ++ u "        - Assess the alignment between the resume and job description." ++
  nl ++ u "        - Detect missing keywords." ++
  nl ++ u "        - Receive tailored suggestions for improvement." ++
  nl ++ u "        ".

Definition key_match := u "JD Match".
Definition key_keywords := u "MissingKeywords".
Definition key_summary := u "Profile Summary".

(** *** [init_session_state] *)

Definition init_session_state : M unit :=
  fun s =>
    match session_processing s with
    | None => write_processing false s
    | Some _ => ret tt s
    end.

(** *** [get_api_key] *)

Definition get_api_key (W : World) : M value :=
  try_except (fun _ => true)
    (st_secrets W)
    (fun _ => load_dotenv W ;; os_getenv).

(** *** [main] *)

(** Lines 97-114: display of the decoded response. *)
Definition display_results (response_json : value) : M unit :=
  emit (st_success msg_complete) ;;
  match_percentage <- get response_json key_match (VStr (u "N/A")) ;;
  metric (u "Match Score") match_percentage ;;
  emit (st_subheader (u "Missing Keywords")) ;;
  missing_keywords <- get response_json key_keywords (VList []) ;;
  (if truthy missing_keywords
   then joined <- str_join (u ", ") missing_keywords ;;
        write (VStr joined)
   else write (VStr msg_no_keywords)) ;;
  emit (st_subheader (u "Profile Summary")) ;;
  summary <- get response_json key_summary (VStr msg_no_summary) ;;
  write summary.

(** Lines 90-114: decoding of the model's answer, then its display. *)
Definition handle_response (W : World) (response : pystr) : M unit :=
  response_json <- try_except is_JSONDecodeError
                     (loads W response)
                     (fun _ => emit (st_error (Text msg_parse_error)) ;; return_) ;;
  display_results response_json.

(** Lines 80-114: the body of the [try] statement. *)
Definition pipeline (W : World) (jd : pystr) (uploaded_file : UploadedFile) : M unit :=
  with_block (spinner_enter msg_spinner) spinner_exit
    (resume_text <- invoke H_extract_pdf_text (call_extract_pdf_text uploaded_file)
                      (extract_pdf_text W uploaded_file) ;;
     input_prompt <- invoke H_prepare_prompt (call_prepare_prompt resume_text jd)
                       (prepare_prompt W resume_text jd) ;;
     response <- invoke H_get_gemini_response (call_get_gemini_response input_prompt)
                   (get_gemini_response W input_prompt) ;;
     handle_response W response).

(** Lines 68-120: what happens when the button was pressed. *)
Definition on_click (W : World) (jd : pystr) (uploaded_file : option UploadedFile) : M unit :=
  match jd with
  | [] => emit (st_warning msg_no_jd) ;; return_
  | _ :: _ =>
      match uploaded_file with
      | None => emit (st_warning msg_no_resume) ;; return_
      | Some f =>
          write_processing true ;;
          try_finally
            (try_except is_Exception
               (pipeline W jd f)
               (fun e => emit (st_error (TextExn msg_error_occurred e))))
            (write_processing false)
      end
  end.

Definition main (W : World) : M unit :=
  def
    (init_session_state ;;
     api_key <- get_api_key W ;;
     (if negb (truthy api_key)
      then emit (st_error (Text msg_no_api_key)) ;; return_
      else ret tt) ;;
     try_except is_Exception
       (invoke H_configure_genai (call_configure_genai api_key) (configure_genai W api_key))
       (fun e => emit (st_error (TextExn msg_configure_failed e)) ;; return_) ;;
     with_block sidebar_enter sidebar_exit
       (emit (st_title sidebar_title) ;;
        emit (st_subheader (u "About")) ;;
        write (VStr about_text)) ;;
     emit (st_title page_title) ;;
     emit (st_subheader (u "Optimize Your Resume for ATS")) ;;
     emit (st_text_area (u "Job Description")) ;;
     let jd := text_area_input W in
     emit (st_file_uploader (u "Resume (PDF)")) ;;
     let uploaded_file := file_uploader_input W in
     disabled <- read_processing ;;
     emit (st_button (u "Analyze Resume") disabled) ;;
     if button_pressed W disabled
     then on_click W jd uploaded_file
     else ret tt).

End App.

(* ================================================================= *)
(** ** Observations on a run *)

Module Obs.
Import Py Json St App.

Definition run := (completion unit * state * list event)%type.

Definition completion_of {A} (r : completion A * state * list event) : completion A :=
  fst (fst r).
Definition state_of {A} (r : completion A * state * list event) : state :=
  snd (fst r).
Definition events_of {A} (r : completion A * state * list event) : list event :=
  snd r.

(** The [disabled] argument the button receives in a run started in [s]. *)
Definition guard (s : state) : bool :=
  match session_processing s with
  | Some b => b
  | None => false
  end.

(** The user presses the button in the run of [W] started in [s]. *)
Definition submits (W : World) (s : state) : Prop :=
  button_pressed W (guard s) = true.

(** The run called the model client and the call returned [r]. *)
Definition model_returned (W : World) (s : state) (r : pystr) : Prop :=
  exists p, In (call_get_gemini_response p) (events_of (main W s))
            /\ get_gemini_response W p = Returns r.

(** The events that follow the rendering of the button. *)
Fixpoint after_button (l : list event) : list event :=
  match l with
  | [] => []
  | st_button _ _ :: r => r
  | _ :: r => after_button r
  end.

Definition is_signal (e : event) : bool :=
  match e with
  | st_metric _ _ | st_write _ => true
  | _ => false
  end.

(** The output signals of a request: the metric and the texts written once
    the button was pressed. *)
Definition output_signals (l : list event) : list event :=
  filter is_signal (after_button l).

Definition is_display (e : event) : bool :=
  match e with
  | st_error _ | st_warning _ => true
  | _ => false
  end.

(** The error and warning messages shown during a run. *)
Definition displayed (l : list event) : list event := filter is_display l.

Definition is_pipeline_call (e : event) : bool :=
  match e with
  | call_extract_pdf_text _ | call_prepare_prompt _ _ | call_get_gemini_response _ => true
  | _ => false
  end.

(** The calls of the PDF extractor, the prompt builder and the model client. *)
Definition pipeline_calls (l : list event) : list event := filter is_pipeline_call l.

Definition is_client_call (e : event) : bool :=
  match e with
  | call_configure_genai _ | call_get_gemini_response _ => true
  | _ => false
  end.

(** The calls that configure or query the model client. *)
Definition client_calls (l : list event) : list event := filter is_client_call l.

(** The environment variable as [os.getenv] sees it after [load_dotenv()]. *)
Definition env_credential (W : World) (s : state) : option pystr :=
  match environ_GOOGLE_API_KEY s with
  | Some v => Some v
  | None => dotenv_GOOGLE_API_KEY W
  end.

(** The session write made by [init_session_state], if any. *)
Definition init_events (s : state) : list event :=
  match session_processing s with
  | None => [set_processing false]
  | Some _ => []
  end.

(** A complete analysis result: the three output signals, in order. *)
Definition result_signals (score keywords summary : value) : list event :=
  [st_metric (u "Match Score") score; st_write keywords; st_write summary].

(** *** The flat description of a run

    The definitions below name the pieces [main] is shown to be made of
    (lemma [main_eq] and the block equations that follow it). *)

(** The credential [get_api_key] resolves: the stored secret when the
    lookup succeeds, otherwise the environment variable. *)
Definition credential (W : World) (s : state) : value :=
  match secrets_GOOGLE_API_KEY W with
  | Returns v => v
  | Raises _ =>
      match env_credential W s with
      | Some v => VStr v
      | None => VNone
      end
  end.

(** The state [get_api_key] leaves behind: the secret that was read is
    exported to the environment; without a secret, the environment file is
    loaded. *)
Definition after_key (W : World) (s : state) : state :=
  match secrets_GOOGLE_API_KEY W with
  | Returns v =>
      match exported W v with
      | Some text =>
          {| session_processing := session_processing s;
             environ_GOOGLE_API_KEY := Some text |}
      | None => s
      end
  | Raises _ =>
      {| session_processing := session_processing s;
         environ_GOOGLE_API_KEY := env_credential W s |}
  end.

(** The state in which the page is rendered. *)
Definition ready (W : World) (s : state) : state :=
  {| session_processing := Some (guard s);
     environ_GOOGLE_API_KEY := environ_GOOGLE_API_KEY (after_key W s) |}.

Definition cleared (s : state) : state :=
  {| session_processing := Some false;
     environ_GOOGLE_API_KEY := environ_GOOGLE_API_KEY s |}.

Definition armed (s : state) : state :=
  {| session_processing := Some true;
     environ_GOOGLE_API_KEY := environ_GOOGLE_API_KEY s |}.

(** What lines 40-65 render, before the button. *)
Definition page_events : list event :=
  [sidebar_enter; st_title sidebar_title; st_subheader (u "About");
   st_write (VStr about_text); sidebar_exit;
   st_title page_title; st_subheader (u "Optimize Your Resume for ATS");
   st_text_area (u "Job Description"); st_file_uploader (u "Resume (PDF)")].

(** The completion of a function call whose body completed with [c]. *)
Definition called (c : completion unit) : completion unit :=
  match c with
  | Return_ => Normal tt
  | _ => c
  end.

(** What the [except Exception] clause of the pipeline displays. *)
Definition handler_events (c : completion unit) : list event :=
  match c with
  | Raise e =>
      if is_Exception e then [st_error (TextExn msg_error_occurred e)] else []
  | _ => []
  end.

(** The completion of the [try] statement whose body completed with [c]. *)
Definition handled (c : completion unit) : completion unit :=
  match c with
  | Raise e => if is_Exception e then Normal tt else Raise e
  | _ => c
  end.

(** The text lines 107-110 pass to [st.write] for the keywords value [kw],
    when the [join] does not raise. *)
Definition keywords_text (kw : value) : option pystr :=
  if truthy kw then join_value (u ", ") kw else Some msg_no_keywords.

(** [st.metric] shows the score [m]. *)
Definition shows_score (m : value) : bool := metric_accepts m && displayable m.

(** The output signals lines 101-114 emit for the three values looked up in
    the decoded answer: each field is rendered only once the fields before
    it were. *)
Definition shown_signals (m kw sm : value) : list event :=
  if shows_score m then
    st_metric (u "Match Score") m ::
    match keywords_text kw with
    | Some text =>
        if encodable text
        then st_write (VStr text) :: (if displayable sm then [st_write sm] else [])
        else []
    | None => []
    end
  else [].

(** The exception that ends the rendering of the three values, if any. *)
Definition render_failure (m kw sm : value) : option exn :=
  if metric_accepts m then
    if displayable m then
      match keywords_text kw with
      | Some text =>
          if encodable text then
            if displayable sm then None else Some (UnicodeEncodeError (text_of sm))
          else Some (UnicodeEncodeError text)
      | None => Some (TypeError_join kw)
      end
    else Some (UnicodeEncodeError (text_of m))
  else Some (TypeError_metric m).

(** What the generic handler displays for it. *)
Definition failure_message (x : option exn) : list event :=
  match x with
  | Some e => [st_error (TextExn msg_error_occurred e)]
  | None => []
  end.

(** Following the words of the specification: strings joined with a
    separator, that is the first string, then every further string behind
    a copy of the separator.  To be compared with [join]. *)
Definition joined_with (sep : pystr) (parts : list pystr) : pystr :=
  match parts with
  | [] => []
  | p :: rest => p ++ List.concat (map (fun q => sep ++ q) rest)
  end.

(** The conditions under which a run reaches the model's answer [r]. *)
Record reaches_response (W : World) (s : state) (f : UploadedFile) (t p r : pystr) : Prop := {
  rr_key : truthy (credential W s) = true;
  rr_configured : configure_genai W (credential W s) = Returns tt;
  rr_pressed : submits W s;
  rr_jd : text_area_input W <> [];
  rr_file : file_uploader_input W = Some f;
  rr_text : extract_pdf_text W f = Returns t;
  rr_prompt : prepare_prompt W t (text_area_input W) = Returns p;
  rr_answer : get_gemini_response W p = Returns r
}.

(** The button was rendered and the user pressed it. *)
Definition submitted (W : World) (s : state) : Prop :=
  In (st_button (u "Analyze Resume") (guard s)) (events_of (main W s))
  /\ button_pressed W (guard s) = true.

(** *** The error taxonomy of the specification *)

Inductive error_kind :=
| ConfigurationError
| ValidationError
| ExtractionError
| TransportError
| ResponseFormatError.

(** The kind a displayed message reports: the two configuration messages,
    the two validation warnings, the parse message, and the generic message
    when its exception comes from the PDF extractor (extraction) or from the
    model client (transport). *)
Definition kind_of (e : event) : option error_kind :=
  match e with
  | st_error (Text m) =>
      if str_eqb m msg_no_api_key then Some ConfigurationError
      else if str_eqb m msg_parse_error then Some ResponseFormatError
      else None
  | st_error (TextExn prefix x) =>
      if str_eqb prefix msg_configure_failed then Some ConfigurationError
      else if str_eqb prefix msg_error_occurred then
        match x with
        | External H_extract_pdf_text _ => Some ExtractionError
        | External H_get_gemini_response _ => Some TransportError
        | _ => None
        end
      else None
  | st_warning m =>
      if str_eqb m msg_no_jd || str_eqb m msg_no_resume then Some ValidationError
      else None
  | _ => None
  end.

(** All three output signals were emitted. *)
Definition full_result (l : list event) : Prop :=
  exists score keywords summary, output_signals l = result_signals score keywords summary.

(** The run returned after emitting a complete result and no message. *)
Definition ends_in_result (r : run) : Prop :=
  completion_of r = Normal tt /\ full_result (events_of r) /\ displayed (events_of r) = [].

(** The run returned after displaying exactly one message, of kind [k]. *)
Definition ends_in (k : error_kind) (r : run) : Prop :=
  completion_of r = Normal tt /\
  exists e, displayed (events_of r) = [e] /\ kind_of e = Some k.

(** The dichotomy of the specification: a complete result, or one of the
    five error kinds. *)
Definition result_or_defined_error (r : run) : Prop :=
  (completion_of r = Normal tt /\ full_result (events_of r)) \/ exists k, ends_in k r.

(** The exceptions the generic handler reports that belong to none of the
    five kinds: every exception that comes neither from the PDF extractor
    nor from the model client.  In [main] these are a failure of the prompt
    builder, a [RecursionError] or [ValueError] of [json.loads], a decoded
    answer that is not an object, and a field that [st.metric], [str.join]
    or [st.write] cannot render. *)
Definition other_failure (x : exn) : bool :=
  match x with
  | External H_extract_pdf_text _ | External H_get_gemini_response _ => false
  | _ => true
  end.

Definition ends_in_other_failure (r : run) : Prop :=
  completion_of r = Normal tt /\
  exists x, displayed (events_of r) = [st_error (TextExn msg_error_occurred x)]
            /\ other_failure x = true.

(** An exception that does not derive from [Exception] left [main]. *)
Definition escapes (r : run) : Prop :=
  exists h x, completion_of r = Raise (External h x) /\ derives_Exception x = false.

End Obs.

(* ================================================================= *)
(** ** Sample inputs *)

Module Samples.
Import Py Json St App Obs.

(** A string between quotation marks. *)
Definition quoted (s : string) : pystr := (34%N :: u s) ++ [34%N].

(** The complete answer of the specification's parsing example. *)
Definition raw_full : pystr :=
  u "{" ++ quoted "JD Match" ++ u ": " ++ quoted "82%" ++ u ", " ++
  quoted "MissingKeywords" ++ u ": [" ++ quoted "Docker" ++ u "," ++ quoted "Kubernetes" ++ u "], " ++
  quoted "Profile Summary" ++ u ": " ++ quoted "Strong backend profile" ++ u "}".

Definition full_dict : dict :=
  [(key_match, VStr (u "82%"));
   (key_keywords, VList [VStr (u "Docker"); VStr (u "Kubernetes")]);
   (key_summary, VStr (u "Strong backend profile"))].

(** The answer of the defaulting example: only the summary is given. *)
Definition raw_summary_only : pystr :=
  u "{" ++ quoted "Profile Summary" ++ u ": " ++ quoted "ok" ++ u "}".

Definition raw_not_json : pystr := u "not json".

(** Valid JSON that is not an object. *)
Definition raw_array : pystr := u "[]".

(** An object whose keywords field is [null]. *)
Definition raw_keywords_null : pystr :=
  u "{" ++ quoted "MissingKeywords" ++ u ": null}".

(** An object whose keywords field is a string. *)
Definition raw_keywords_string : pystr :=
  u "{" ++ quoted "MissingKeywords" ++ u ": " ++ quoted "SQL" ++ u "}".

(** Three thousand opening brackets: not JSON, and deeper than the
    interpreter follows. *)
Definition raw_deep : pystr := repeat 91%N 3000.

(** An object whose keywords field is a string holding the escape of a lone
    surrogate, which [json.loads] decodes to that code point. *)
Definition raw_keywords_surrogate : pystr :=
  u "{" ++ quoted "MissingKeywords" ++ u ": " ++ quoted "\ud800" ++ u "}".

(** An object whose keywords field is a number. *)
Definition raw_keywords_number : pystr :=
  u "{" ++ quoted "MissingKeywords" ++ u ": 5}".

Definition sample_file : UploadedFile :=
  {| file_name := u "resume.pdf"; file_bytes := [37; 80; 68; 70]%N |}.

Definition sample_prompt : pystr := u "resume text" ++ nl ++ u "backend engineer".

(** A session in which everything works and the model client ends as
    [answer] says.  The interpreter has its usual limits: 1000 levels of
    nesting, 4300 digits. *)
Definition world_with (answer : outcome pystr) : World :=
  {| secrets_GOOGLE_API_KEY := Returns (VStr (u "secret-key"));
     dotenv_GOOGLE_API_KEY := None;
     configure_genai := fun _ => Returns tt;
     extract_pdf_text := fun _ => Returns (u "resume text");
     prepare_prompt := fun resume_text jd => Returns (resume_text ++ nl ++ jd);
     get_gemini_response := fun _ => answer;
     text_area_input := u "backend engineer";
     file_uploader_input := Some sample_file;
     button_pressed := fun disabled => negb disabled;
     nesting_spare := 992;
     int_digits_spare := Some 3660;
     str_of_float := fun _ => u "nan" |}.

Definition world_answering (r : pystr) : World := world_with (Returns r).

(** The model client is interrupted by an exception outside [Exception]. *)
Definition world_interrupted : World :=
  world_with (Raises {| derives_Exception := false; exc_str := [] |}).

(** The user presses the button without a job description. *)
Definition world_no_jd : World :=
  {| secrets_GOOGLE_API_KEY := Returns (VStr (u "secret-key"));
     dotenv_GOOGLE_API_KEY := None;
     configure_genai := fun _ => Returns tt;
     extract_pdf_text := fun _ => Returns (u "resume text");
     prepare_prompt := fun resume_text jd => Returns (resume_text ++ nl ++ jd);
     get_gemini_response := fun _ => Returns raw_full;
     text_area_input := [];
     file_uploader_input := Some sample_file;
     button_pressed := fun disabled => negb disabled;
     nesting_spare := 992;
     int_digits_spare := Some 3660;
     str_of_float := fun _ => u "nan" |}.

Definition missing_secret : raised :=
  {| derives_Exception := true; exc_str := u "GOOGLE_API_KEY" |}.

(** Credential sources: [secret] is the outcome of the secret store lookup,
    [dotenv] the entry of the environment file. *)
Definition world_credentials (secret : outcome value) (dotenv : option pystr) : World :=
  {| secrets_GOOGLE_API_KEY := secret;
     dotenv_GOOGLE_API_KEY := dotenv;
     configure_genai := fun _ => Returns tt;
     extract_pdf_text := fun _ => Returns (u "resume text");
     prepare_prompt := fun resume_text jd => Returns (resume_text ++ nl ++ jd);
     get_gemini_response := fun _ => Returns raw_full;
     text_area_input := u "backend engineer";
     file_uploader_input := Some sample_file;
     button_pressed := fun disabled => negb disabled;
     nesting_spare := 992;
     int_digits_spare := Some 3660;
     str_of_float := fun _ => u "nan" |}.

(** A new session in a process without the environment variable. *)
Definition fresh : state :=
  {| session_processing := None; environ_GOOGLE_API_KEY := None |}.

End Samples.

(* ================================================================= *)
(** ** Sessions of several runs, further sample inputs *)

Module Sessions.
Import Py Json St App Obs Samples.

(** Successive runs of the script in one session: the state a run leaves is
    the state the next one starts in. *)
Fixpoint reruns (Ws : list World) (s : state) : state * list event :=
  match Ws with
  | [] => (s, [])
  | W :: rest =>
      let r := main W s in
      let '(s', l) := reruns rest (state_of r) in
      (s', events_of r ++ l)
  end.

Definition is_spinner (e : event) : bool :=
  match e with
  | spinner_enter _ | spinner_exit => true
  | _ => false
  end.

(** A session described by what the client configuration, the extractor and
    the model client do, and by whether the user presses the button. *)
Definition world_of (configured : outcome unit) (extracted answer : outcome pystr)
    (pressed : bool) : World :=
  {| secrets_GOOGLE_API_KEY := Returns (VStr (u "secret-key"));
     dotenv_GOOGLE_API_KEY := None;
     configure_genai := fun _ => configured;
     extract_pdf_text := fun _ => extracted;
     prepare_prompt := fun resume_text jd => Returns (resume_text ++ nl ++ jd);
     get_gemini_response := fun _ => answer;
     text_area_input := u "backend engineer";
     file_uploader_input := Some sample_file;
     button_pressed := fun disabled => pressed && negb disabled;
     nesting_spare := 992;
     int_digits_spare := Some 3660;
     str_of_float := fun _ => u "nan" |}.

(** The user filled the form but uploaded no file. *)
Definition world_no_file : World :=
  {| secrets_GOOGLE_API_KEY := Returns (VStr (u "secret-key"));
     dotenv_GOOGLE_API_KEY := None;
     configure_genai := fun _ => Returns tt;
     extract_pdf_text := fun _ => Returns (u "resume text");
     prepare_prompt := fun resume_text jd => Returns (resume_text ++ nl ++ jd);
     get_gemini_response := fun _ => Returns raw_full;
     text_area_input := u "backend engineer";
     file_uploader_input := None;
     button_pressed := fun disabled => negb disabled;
     nesting_spare := 992;
     int_digits_spare := Some 3660;
     str_of_float := fun _ => u "nan" |}.

Definition invalid_key : raised :=
  {| derives_Exception := true; exc_str := u "API key not valid" |}.

Definition unreadable_pdf : raised :=
  {| derives_Exception := true; exc_str := u "No text could be extracted" |}.

Definition quota_exceeded : raised :=
  {| derives_Exception := true; exc_str := u "quota exceeded" |}.

(** The page is displayed and the button is left alone. *)
Definition world_idle : World :=
  world_of (Returns tt) (Returns (u "resume text")) (Returns raw_full) false.

Definition world_configure_fails : World :=
  world_of (Raises invalid_key) (Returns (u "resume text")) (Returns raw_full) true.

Definition world_extract_fails : World :=
  world_of (Returns tt) (Raises unreadable_pdf) (Returns raw_full) true.

Definition world_model_fails : World :=
  world_of (Returns tt) (Returns (u "resume text")) (Raises quota_exceeded) true.

(** An answer made of whitespace only. *)
Definition raw_blank : pystr := u "  " ++ nl.

(** An object whose summary is a string holding the escape of a lone
    surrogate. *)
Definition raw_summary_surrogate : pystr :=
  u "{" ++ quoted "Profile Summary" ++ u ": " ++ quoted "\ud800" ++ u "}".

(** An object whose keywords field is itself an object. *)
Definition raw_keywords_object : pystr :=
  u "{" ++ quoted "MissingKeywords" ++ u ": {" ++ quoted "Go" ++ u ": 1, " ++
  quoted "SQL" ++ u ": 2}}".

End Sessions.

(* ================================================================= *)
(** ** Proof automation *)

(** Case analysis on the scrutinee of a [match] of the goal or a hypothesis. *)
Ltac break_match :=
  match goal with
  | H : context [match ?x with _ => _ end] |- _ => destruct x eqn:?
  | |- context [match ?x with _ => _ end] => destruct x eqn:?
  end.

(* ================================================================= *)
(** ** The decoder: termination within its fuel, limits *)

Module JsonFacts.
Import Py Json.

Lemma skip_ws_length s : List.length (skip_ws s) <= List.length s.
Proof.
  induction s as [|c r IH]; simpl; [lia|].
  destruct (is_ws c); simpl; lia.
Qed.

Lemma prepend_inv c o str rest :
  prepend c o = Some (str, rest) ->
  exists str', o = Some (str', rest) /\ str = c :: str'.
Proof.
  destruct o as [[a b]|]; simpl; intros H; inversion H; subst; eauto.
Qed.

Lemma scanstring_length_aux n :
  forall s str rest, List.length s <= n ->
    scanstring s = Some (str, rest) -> List.length rest < List.length s.
Proof.
  induction n as [|n IH]; intros s str rest Hn H.
  - destruct s; simpl in *; [discriminate | lia].
  - destruct s as [|c r]; [discriminate|].
    simpl in H, Hn.
    repeat (break_match; try discriminate);
      try (inversion H; subst; simpl; lia);
      try (apply prepend_inv in H; destruct H as (? & H & _);
           apply IH in H; simpl in *; lia).
Qed.

Lemma scanstring_length s str rest :
  scanstring s = Some (str, rest) -> List.length rest < List.length s.
Proof. apply scanstring_length_aux with (n := List.length s); lia. Qed.

Lemma span_digits_length s : List.length (snd (span_digits s)) <= List.length s.
Proof.
  induction s as [|c r IH]; simpl; [lia|].
  destruct (is_digit c); simpl; [|lia].
  destruct (span_digits r); simpl in *; lia.
Qed.

Lemma match_number_length s (v : literal) rest :
  match_number s = Some (v, rest) -> List.length rest < List.length s.
Proof.
  unfold match_number. intros H.
  repeat (break_match; try discriminate);
  repeat match goal with
         | H : (_, _) = (_, _) |- _ => inversion H; clear H; subst
         | H : Some _ = Some _ |- _ => inversion H; clear H; subst
         | H : span_digits ?x = (_, ?r) |- _ =>
             let L := fresh in
             pose proof (span_digits_length x) as L; rewrite H in L; simpl in L; clear H
         end; simpl in *; try lia.
Qed.

Lemma strip_prefix_length p s rest :
  strip_prefix p s = Some rest -> List.length rest + List.length p = List.length s.
Proof.
  revert s; induction p as [|a p IH]; intros s H; simpl in *.
  - inversion H; lia.
  - destruct s as [|b s]; [discriminate|].
    destruct (a =? b)%N; [|discriminate].
    apply IH in H. simpl. lia.
Qed.

Lemma match_constant_length s v rest :
  match_constant s = Some (v, rest) -> List.length rest < List.length s.
Proof.
  unfold match_constant. intros H.
  destruct s as [|c r]; [discriminate|].
  repeat (break_match; try discriminate);
    inversion H; subst;
    match goal with
    | E : strip_prefix _ _ = Some _ |- _ => apply strip_prefix_length in E; simpl in E; simpl; lia
    end.
Qed.

Lemma skip_ws_cons_length s c r :
  skip_ws s = c :: r -> List.length r < List.length s.
Proof. intros H. pose proof (skip_ws_length s) as L. rewrite H in L. simpl in L. lia. Qed.

Ltac shrink_facts :=
  repeat match goal with
         | H : scanstring _ = Some (_, _) |- _ => apply scanstring_length in H
         | H : skip_ws _ = _ :: _ |- _ => apply skip_ws_cons_length in H
         | H : match_constant _ = Some (_, _) |- _ => apply match_constant_length in H
         | H : match_number _ = Some (_, _) |- _ => apply match_number_length in H
         end.

Ltac skip_facts :=
  repeat match goal with
         | |- context [skip_ws ?x] =>
             lazymatch goal with
             | _ : List.length (skip_ws x) <= List.length x |- _ => fail
             | _ => pose proof (skip_ws_length x)
             end
         | _ : context [skip_ws ?x] |- _ =>
             lazymatch goal with
             | _ : List.length (skip_ws x) <= List.length x |- _ => fail
             | _ => pose proof (skip_ws_length x)
             end
         end.

Ltac scanned_inj :=
  repeat match goal with
         | H : Scanned _ _ = Scanned _ _ |- _ => inversion H; clear H; subst
         | H : number _ ?o = Scanned _ _ |- _ =>
             let E := fresh "E" in
             unfold number in H;
             destruct o as [[[? ?|?] ?]|] eqn:E; [| |discriminate];
             [destruct (exceeds _ _); [discriminate|]|]
         end.

Lemma scan_shrinks fuel :
  (forall depth lim s v rest,
     scan_once fuel depth lim s = Scanned v rest -> List.length rest < List.length s) /\
  (forall depth lim s acc v rest,
     array_items fuel depth lim s acc = Scanned v rest -> List.length rest < List.length s) /\
  (forall depth lim s acc v rest,
     object_members fuel depth lim s acc = Scanned v rest -> List.length rest < List.length s).
Proof.
  induction fuel as [|n (IHs & IHa & IHo)]; [repeat split; intros; discriminate|].
  repeat split; intros until rest; intros H; simpl in H;
    repeat (break_match; try discriminate);
    repeat match goal with
           | E : scan_once n _ _ _ = Scanned _ _ |- _ => apply IHs in E
           | E : array_items n _ _ _ _ = Scanned _ _ |- _ => apply IHa in E
           | E : object_members n _ _ _ _ = Scanned _ _ |- _ => apply IHo in E
           end;
    scanned_inj; shrink_facts; skip_facts; simpl in *; lia.
Qed.

Lemma scan_fuel fuel :
  (forall depth lim s,
     2 * List.length s + 1 <= fuel -> scan_once fuel depth lim s <> OutOfFuel) /\
  (forall depth lim s acc,
     2 * List.length s + 2 <= fuel -> array_items fuel depth lim s acc <> OutOfFuel) /\
  (forall depth lim s acc,
     2 * List.length s + 2 <= fuel -> object_members fuel depth lim s acc <> OutOfFuel).
Proof.
  induction fuel as [|n (IHs & IHa & IHo)]; [repeat split; intros; lia|].
  destruct (scan_shrinks n) as (Ss & _ & _).
  repeat split; intros * Hf; simpl;
    repeat (break_match; try discriminate);
    repeat match goal with
           | E : scan_once n _ _ _ = Scanned _ _ |- _ => apply Ss in E
           end;
    shrink_facts; skip_facts; simpl in *;
    try (unfold number; destruct (match_number _) as [[[? ?|?] ?]|];
         try destruct (exceeds _ _); discriminate);
    try (apply IHa; simpl; lia); try (apply IHo; simpl; lia);
    try (exfalso;
         match goal with
         | E : scan_once n _ _ ?x = OutOfFuel |- _ => revert E; apply IHs; simpl; lia
         end).
Qed.

Lemma decode_total depth lim s : decode depth lim s <> OutOfFuel.
Proof.
  assert (H : scan_once (fuel_for s) depth lim (skip_ws s) <> OutOfFuel).
  { apply (proj1 (scan_fuel (fuel_for s))). unfold fuel_for.
    pose proof (skip_ws_length s). lia. }
  unfold decode.
  repeat (break_match; try discriminate); congruence.
Qed.

(** [json.loads] raises exactly what the decoder reports. *)
Lemma json_loads_Raised depth lim s f :
  json_loads depth lim s = Raised f <-> decode depth lim s = Failed f.
Proof.
  unfold json_loads. pose proof (decode_total depth lim s) as T.
  destruct (decode depth lim s); split; intros H; congruence.
Qed.

Lemma roomy_sub depth depth' s s' :
  roomy (S depth) (S depth') s -> List.length s' < List.length s -> roomy depth depth' s'.
Proof. unfold roomy. lia. Qed.

Lemma roomy_tail depth depth' s s' :
  roomy depth depth' s -> List.length s' <= List.length s -> roomy depth depth' s'.
Proof. unfold roomy. lia. Qed.

Lemma number_relax lim lim' o v rest :
  laxer lim lim' ->
  number lim o = Scanned v rest -> number lim' o = Scanned v rest.
Proof.
  intros L. unfold number. destruct o as [[[n z|f] r]|]; try (intros H; exact H).
  destruct (exceeds lim n) eqn:E; [discriminate|].
  destruct (exceeds lim' n) eqn:E'; [|intros H; exact H].
  apply L in E'. congruence.
Qed.

(** Relaxing the limits keeps what was decoded. *)
Lemma scan_relax lim lim' (L : laxer lim lim') fuel :
  (forall depth depth' s v rest,
     roomy depth depth' s ->
     scan_once fuel depth lim s = Scanned v rest ->
     scan_once fuel depth' lim' s = Scanned v rest) /\
  (forall depth depth' s acc v rest,
     roomy depth depth' s ->
     array_items fuel depth lim s acc = Scanned v rest ->
     array_items fuel depth' lim' s acc = Scanned v rest) /\
  (forall depth depth' s acc v rest,
     roomy depth depth' s ->
     object_members fuel depth lim s acc = Scanned v rest ->
     object_members fuel depth' lim' s acc = Scanned v rest).
Proof.
  induction fuel as [|n (IHs & IHa & IHo)]; [repeat split; intros; discriminate|].
  destruct (scan_shrinks n) as (Ss & _ & _).
  repeat split.
  - intros depth depth' s v rest R H. cbn [scan_once] in *.
    destruct s as [|c r]; [discriminate|].
    destruct (c =? 34)%N; [exact H|].
    destruct (c =? 123)%N.
    { destruct depth as [|d]; [discriminate|].
      destruct depth' as [|d']; [unfold roomy in R; cbn in R; lia|].
      destruct (skip_ws r) as [|c' r'] eqn:E; [discriminate|].
      destruct (c' =? 125)%N; [exact H|].
      eapply IHo; [|exact H]. eapply roomy_sub; [exact R|].
      pose proof (skip_ws_length r) as L0. rewrite E in L0. cbn in *. lia. }
    destruct (c =? 91)%N.
    { destruct depth as [|d]; [discriminate|].
      destruct depth' as [|d']; [unfold roomy in R; cbn in R; lia|].
      destruct (skip_ws r) as [|c' r'] eqn:E; [discriminate|].
      destruct (c' =? 93)%N; [exact H|].
      eapply IHa; [|exact H]. eapply roomy_sub; [exact R|].
      pose proof (skip_ws_length r) as L0. rewrite E in L0. cbn in *. lia. }
    destruct (match_constant (c :: r)) as [[? ?]|]; [exact H|].
    eapply number_relax; [exact L | exact H].
  - intros depth depth' s acc v rest R H. cbn [array_items] in *.
    destruct (scan_once n depth lim s) as [v1 rest1| |] eqn:E; try discriminate.
    rewrite (IHs _ _ _ _ _ R E). apply Ss in E.
    destruct (skip_ws rest1) as [|c r] eqn:E1; [discriminate|].
    destruct (c =? 93)%N; [exact H|].
    destruct (c =? 44)%N; [|discriminate].
    eapply IHa; [|exact H]. eapply roomy_tail; [exact R|].
    pose proof (skip_ws_length rest1) as L1. pose proof (skip_ws_length r) as L2.
    rewrite E1 in L1. cbn in *. lia.
  - intros depth depth' s acc v rest R H. cbn [object_members] in *.
    destruct s as [|q r]; [discriminate|].
    destruct (q =? 34)%N; [|discriminate].
    destruct (scanstring r) as [[key r1]|] eqn:Ek; [|discriminate].
    apply scanstring_length in Ek.
    destruct (skip_ws r1) as [|colon r2] eqn:E1; [discriminate|].
    destruct (colon =? 58)%N; [|discriminate].
    pose proof (skip_ws_length r1) as L1. rewrite E1 in L1.
    pose proof (skip_ws_length r2) as L2.
    destruct (scan_once n depth lim (skip_ws r2)) as [v1 rest1| |] eqn:E; try discriminate.
    assert (R2 : roomy depth depth' (skip_ws r2)).
    { eapply roomy_tail; [exact R|]. cbn in *. lia. }
    rewrite (IHs _ _ _ _ _ R2 E). apply Ss in E.
    destruct (skip_ws rest1) as [|c r3] eqn:E3; [discriminate|].
    destruct (c =? 125)%N; [exact H|].
    destruct (c =? 44)%N; [|discriminate].
    eapply IHo; [|exact H]. eapply roomy_tail; [exact R|].
    pose proof (skip_ws_length rest1) as L3. pose proof (skip_ws_length r3) as L4.
    rewrite E3 in L3. cbn in *. lia.
Qed.

Lemma json_loads_relax depth depth' lim lim' s v :
  roomy depth depth' s -> laxer lim lim' ->
  json_loads depth lim s = Decoded v -> json_loads depth' lim' s = Decoded v.
Proof.
  unfold json_loads, decode. intros R L H.
  destruct s as [|c r]; [discriminate|].
  assert (R' : roomy depth depth' (skip_ws (c :: r))).
  { eapply roomy_tail; [exact R | apply skip_ws_length]. }
  destruct (scan_once (fuel_for (c :: r)) depth lim (skip_ws (c :: r)))
    as [v1 rest1| |] eqn:E.
  - rewrite (proj1 (scan_relax L _) _ _ _ _ _ R' E).
    repeat (break_match; try discriminate; try exact H).
  - repeat (break_match; try discriminate).
  - repeat (break_match; try discriminate).
Qed.

Lemma laxer_None lim : laxer lim None.
Proof. intros n H. discriminate. Qed.

(** What [json.loads] returns under the limits of an interpreter is valid
    JSON: a text that is not valid JSON always makes it raise. *)
Lemma json_loads_valid depth lim s v :
  json_loads depth lim s = Decoded v -> valid_json s = true.
Proof.
  intros H. unfold valid_json.
  rewrite (@json_loads_relax depth (List.length s) lim None s v); auto using laxer_None.
  right. lia.
Qed.

Lemma span_digits_split s :
  List.length (fst (span_digits s)) + List.length (snd (span_digits s)) = List.length s.
Proof.
  induction s as [|c r IH]; simpl; [lia|].
  destruct (is_digit c); simpl; [|lia].
  destruct (span_digits r); simpl in *; lia.
Qed.

(** The digits of an integer literal are characters of the text. *)
Lemma match_number_digits s n z rest :
  match_number s = Some (IntLit n z, rest) -> n <= List.length s.
Proof.
  unfold match_number. intros H.
  repeat (break_match; try discriminate);
  repeat match goal with
         | H : (_, _) = (_, _) |- _ => inversion H; clear H; subst
         | H : Some _ = Some _ |- _ => inversion H; clear H; subst
         | H : span_digits ?x = (_, _) |- _ =>
             let L := fresh in
             pose proof (span_digits_split x) as L; rewrite H in L; simpl in L; clear H
         end; simpl in *; try lia.
Qed.

(** Limits that are ample for [s]: the text is no longer than the nesting
    allowed, nor than the digits allowed. *)
Lemma number_ample lim s f :
  (forall m, lim = Some m -> List.length s <= m) ->
  number lim (match_number s) = Failed f -> f = NotJSON.
Proof.
  intros A. unfold number.
  destruct (match_number s) as [[[n z|x] r]|] eqn:E; try (intros H; congruence).
  destruct lim as [m|]; cbn [exceeds]; [|discriminate].
  apply match_number_digits in E. specialize (A m eq_refl).
  destruct (m <? n) eqn:L; [|discriminate]. apply Nat.ltb_lt in L. lia.
Qed.

Lemma scan_ample lim fuel :
  (forall depth s f,
     List.length s <= depth -> (forall m, lim = Some m -> List.length s <= m) ->
     scan_once fuel depth lim s = Failed f -> f = NotJSON) /\
  (forall depth s acc f,
     List.length s <= depth -> (forall m, lim = Some m -> List.length s <= m) ->
     array_items fuel depth lim s acc = Failed f -> f = NotJSON) /\
  (forall depth s acc f,
     List.length s <= depth -> (forall m, lim = Some m -> List.length s <= m) ->
     object_members fuel depth lim s acc = Failed f -> f = NotJSON).
Proof.
  induction fuel as [|n (IHs & IHa & IHo)]; [repeat split; intros; discriminate|].
  destruct (scan_shrinks n) as (Ss & _ & _).
  assert (Sub : forall (s s' : pystr) k, List.length s' <= List.length s ->
            (forall m, lim = Some m -> List.length s <= m) -> List.length s <= k ->
            (forall m, lim = Some m -> List.length s' <= m) /\ List.length s' <= k).
  { intros s s' k L A D. split; [intros m Hm; specialize (A m Hm)|]; lia. }
  repeat split.
  - intros depth s f D A H. cbn [scan_once] in H.
    destruct s as [|c r]; [congruence|].
    destruct (c =? 34)%N; [destruct (scanstring r) as [[? ?]|]; congruence|].
    destruct (c =? 123)%N.
    { destruct depth as [|d]; [cbn in D; lia|].
      destruct (skip_ws r) as [|c' r'] eqn:E; [congruence|].
      destruct (c' =? 125)%N; [discriminate|].
      pose proof (skip_ws_length r) as L0. rewrite E in L0.
      eapply IHo; [| |exact H].
      - cbn in *. lia.
      - intros m Hm. specialize (A m Hm). cbn in *. lia. }
    destruct (c =? 91)%N.
    { destruct depth as [|d]; [cbn in D; lia|].
      destruct (skip_ws r) as [|c' r'] eqn:E; [congruence|].
      destruct (c' =? 93)%N; [discriminate|].
      pose proof (skip_ws_length r) as L0. rewrite E in L0.
      eapply IHa; [| |exact H].
      - cbn in *. lia.
      - intros m Hm. specialize (A m Hm). cbn in *. lia. }
    destruct (match_constant (c :: r)) as [[? ?]|]; [discriminate|].
    eapply number_ample; [exact A | exact H].
  - intros depth s acc f D A H. cbn [array_items] in H.
    destruct (scan_once n depth lim s) as [v1 rest1| |] eqn:E; try discriminate.
    + apply Ss in E.
      destruct (skip_ws rest1) as [|c r] eqn:E1; [congruence|].
      destruct (c =? 93)%N; [discriminate|].
      destruct (c =? 44)%N; [|congruence].
      pose proof (skip_ws_length rest1) as L1. pose proof (skip_ws_length r) as L2.
      rewrite E1 in L1.
      destruct (Sub s (skip_ws r) depth) as [A' D']; [cbn in *; lia | exact A | exact D |].
      eapply IHa; [exact D' | exact A' | exact H].
    + inversion H; subst. eapply IHs; [exact D | exact A | exact E].
  - intros depth s acc f D A H. cbn [object_members] in H.
    destruct s as [|q r]; [congruence|].
    destruct (q =? 34)%N; [|congruence].
    destruct (scanstring r) as [[key r1]|] eqn:Ek; [|congruence].
    apply scanstring_length in Ek.
    destruct (skip_ws r1) as [|colon r2] eqn:E1; [congruence|].
    destruct (colon =? 58)%N; [|congruence].
    pose proof (skip_ws_length r1) as L1. rewrite E1 in L1.
    pose proof (skip_ws_length r2) as L2.
    destruct (Sub (q :: r) (skip_ws r2) depth) as [A2 D2]; [cbn in *; lia | exact A | exact D |].
    destruct (scan_once n depth lim (skip_ws r2)) as [v1 rest1| |] eqn:E; try discriminate.
    + apply Ss in E.
      destruct (skip_ws rest1) as [|c r3] eqn:E3; [congruence|].
      destruct (c =? 125)%N; [discriminate|].
      destruct (c =? 44)%N; [|congruence].
      pose proof (skip_ws_length rest1) as L3. pose proof (skip_ws_length r3) as L4.
      rewrite E3 in L3.
      destruct (Sub (q :: r) (skip_ws r3) depth) as [A3 D3]; [cbn in *; lia | exact A | exact D |].
      eapply IHo; [exact D3 | exact A3 | exact H].
    + inversion H; subst. eapply IHs; [exact D2 | exact A2 | exact E].
Qed.

(** Under limits that are ample for the text, [json.loads] raises nothing
    but [JSONDecodeError]. *)
Lemma json_loads_ample depth lim s f :
  List.length s <= depth -> (forall m, lim = Some m -> List.length s <= m) ->
  json_loads depth lim s = Raised f -> f = NotJSON.
Proof.
  unfold json_loads, decode. intros D A H.
  pose proof (skip_ws_length s) as L.
  destruct (scan_once (fuel_for s) depth lim (skip_ws s)) as [v1 rest1|f1|] eqn:E.
  - repeat (break_match; try discriminate); congruence.
  - assert (f1 = NotJSON).
    { eapply (proj1 (scan_ample lim _)); [| |exact E]; [lia|].
      intros m Hm. specialize (A m Hm). lia. }
    repeat (break_match; try discriminate); congruence.
  - repeat (break_match; try discriminate); congruence.
Qed.

End JsonFacts.

(* ================================================================= *)
(** ** The shape of a run *)

Module RunFacts.
Import Py Json St App Obs JsonFacts.
Local Open Scope py_scope.

(** Every interpreter decodes what the least limits let through. *)
Lemma loads_base W r v :
  json_loads base_nesting (Some base_int_digits) r = Decoded v ->
  json_loads (nesting_limit W) (int_digits_limit W) r = Decoded v.
Proof.
  apply json_loads_relax.
  - left. unfold nesting_limit. lia.
  - unfold int_digits_limit. destruct (int_digits_spare W) as [n|]; [|apply laxer_None].
    intros k. cbn [exceeds]. rewrite !Nat.ltb_lt. lia.
Qed.

Lemma about_text_displayable : displayable (VStr about_text) = true.
Proof. vm_compute. reflexivity. Qed.

Lemma no_keywords_encodable : encodable msg_no_keywords = true.
Proof. vm_compute. reflexivity. Qed.

Lemma get_api_key_eq W s :
  get_api_key W s = (Normal (credential W s), after_key W s, []).
Proof.
  unfold get_api_key, credential, after_key, env_credential, try_except, st_secrets,
    bind, load_dotenv, os_getenv.
  destruct (secrets_GOOGLE_API_KEY W) as [v|e]; [destruct (exported W v); reflexivity|].
  destruct s as [pr [v|]]; simpl; [reflexivity|].
  destruct (dotenv_GOOGLE_API_KEY W); reflexivity.
Qed.

Lemma main_eq W s :
  main W s =
  let k := credential W s in
  if truthy k then
    match configure_genai W k with
    | Returns _ =>
        let page l := init_events s ++ call_configure_genai k :: page_events
                        ++ st_button (u "Analyze Resume") (guard s) :: l in
        if button_pressed W (guard s) then
          let '(c, s2, l) := on_click W (text_area_input W) (file_uploader_input W) (ready W s) in
          (called c, s2, page l)
        else (Normal tt, ready W s, page [])
    | Raises e =>
        if derives_Exception e
        then (Normal tt, ready W s,
              init_events s ++ [call_configure_genai k; st_error (TextExn msg_configure_failed (External H_configure_genai e))])
        else (Raise (External H_configure_genai e), ready W s,
              init_events s ++ [call_configure_genai k])
    end
  else (Normal tt, ready W s, init_events s ++ [st_error (Text msg_no_api_key)]).
Proof.
  unfold main, def.
  unfold bind at 1.
  assert (Hi : init_session_state s =
               (Normal tt, {| session_processing := Some (guard s);
                              environ_GOOGLE_API_KEY := environ_GOOGLE_API_KEY s |},
                init_events s)).
  { unfold init_session_state, init_events, guard, write_processing, ret.
    destruct s as [[b|] e]; reflexivity. }
  rewrite Hi. unfold bind at 1. rewrite get_api_key_eq.
  assert (Hk : credential W {| session_processing := Some (guard s);
                              environ_GOOGLE_API_KEY := environ_GOOGLE_API_KEY s |}
               = credential W s) by reflexivity.
  assert (Ha : after_key W {| session_processing := Some (guard s);
                              environ_GOOGLE_API_KEY := environ_GOOGLE_API_KEY s |}
               = ready W s).
  { unfold ready, after_key, env_credential.
    destruct (secrets_GOOGLE_API_KEY W) as [v|e]; [destruct (exported W v)|]; reflexivity. }
  rewrite Hk, Ha. cbv zeta.
  destruct (truthy (credential W s)) eqn:Ht; cbn [negb].
  2:{ cbv [bind emit return_]. cbn [app]. reflexivity. }
  unfold bind at 1. unfold ret at 1.
  unfold bind at 1. unfold try_except, invoke.
  destruct (configure_genai W (credential W s)) as [[]|e].
  2:{ cbn [is_Exception]. destruct (derives_Exception e).
      - cbv [bind emit return_]. cbn [app]. reflexivity.
      - cbn [app]. reflexivity. }
  unfold write. rewrite about_text_displayable.
  cbv [with_block bind emit try_finally read_processing ret page_events].
  cbn [session_processing ready app].
  destruct (button_pressed W (guard s)).
  - destruct (on_click W (text_area_input W) (file_uploader_input W) (ready W s)) as [[c s2] l].
    cbn [app]. destruct c; reflexivity.
  - cbn [app]. reflexivity.
Qed.

Lemma display_results_eq v s :
  display_results v s =
  match v with
  | VDict d =>
      let m := dict_get d key_match (VStr (u "N/A")) in
      let kw := dict_get d key_keywords (VList []) in
      let sm := dict_get d key_summary (VStr msg_no_summary) in
      if metric_accepts m then
        if displayable m then
          match keywords_text kw with
          | Some text =>
              if encodable text then
                if displayable sm then
                  (Normal tt, s,
                   [st_success msg_complete; st_metric (u "Match Score") m;
                    st_subheader (u "Missing Keywords"); st_write (VStr text);
                    st_subheader (u "Profile Summary"); st_write sm])
                else
                  (Raise (UnicodeEncodeError (text_of sm)), s,
                   [st_success msg_complete; st_metric (u "Match Score") m;
                    st_subheader (u "Missing Keywords"); st_write (VStr text);
                    st_subheader (u "Profile Summary")])
              else
                (Raise (UnicodeEncodeError text), s,
                 [st_success msg_complete; st_metric (u "Match Score") m;
                  st_subheader (u "Missing Keywords")])
          | None =>
              (Raise (TypeError_join kw), s,
               [st_success msg_complete; st_metric (u "Match Score") m;
                st_subheader (u "Missing Keywords")])
          end
        else (Raise (UnicodeEncodeError (text_of m)), s, [st_success msg_complete])
      else (Raise (TypeError_metric m), s, [st_success msg_complete])
  | _ => (Raise (AttributeError v (u "get")), s, [st_success msg_complete])
  end.
Proof.
  unfold display_results, keywords_text.
  destruct v; try reflexivity.
  cbv [bind emit get ret metric]. cbn [app]. cbv zeta.
  destruct (metric_accepts _); [|reflexivity].
  destruct (displayable (dict_get entries key_match _)); [|reflexivity].
  cbn [app].
  destruct (truthy _).
  - unfold str_join. destruct (join_value _ _) as [text|]; [|reflexivity].
    cbv [ret write]. cbn [displayable text_of].
    destruct (encodable text); [|reflexivity].
    destruct (displayable (dict_get entries key_summary _)); reflexivity.
  - cbv [write]. cbn [displayable text_of]. rewrite no_keywords_encodable.
    destruct (displayable (dict_get entries key_summary _)); reflexivity.
Qed.

Lemma handle_response_eq W r s :
  handle_response W r s =
  match json_loads (nesting_limit W) (int_digits_limit W) r with
  | Decoded v => display_results v s
  | Raised NotJSON => (Return_, s, [st_error (Text msg_parse_error)])
  | Raised f => (Raise (exn_of f), s, [])
  end.
Proof.
  unfold handle_response, loads, bind, try_except.
  destruct (json_loads _ _ r) as [v|[| |]].
  - unfold ret. destruct (display_results v s) as [[c s'] l]. reflexivity.
  - reflexivity.
  - reflexivity.
  - reflexivity.
Qed.

(** Case analysis on what the display of a decoded answer depends on. *)
Ltac display_cases :=
  repeat match goal with
         | |- context [if ?b then _ else _] => destruct b
         | |- context [match keywords_text ?k with _ => _ end] => destruct (keywords_text k)
         end.

Lemma display_results_state v s :
  state_of (display_results v s) = s.
Proof.
  rewrite display_results_eq. unfold state_of.
  destruct v; try reflexivity. cbv zeta. display_cases; reflexivity.
Qed.

Lemma handle_response_state W r s : state_of (handle_response W r s) = s.
Proof.
  rewrite handle_response_eq.
  destruct (json_loads _ _ r) as [v|[| |]]; [apply display_results_state | reflexivity ..].
Qed.

Lemma display_results_indep v s s' :
  completion_of (display_results v s) = completion_of (display_results v s') /\
  events_of (display_results v s) = events_of (display_results v s').
Proof.
  rewrite !display_results_eq. unfold completion_of, events_of.
  destruct v; try (split; reflexivity). cbv zeta. display_cases; split; reflexivity.
Qed.

Lemma handle_response_indep W r s s' :
  completion_of (handle_response W r s) = completion_of (handle_response W r s') /\
  events_of (handle_response W r s) = events_of (handle_response W r s').
Proof.
  rewrite !handle_response_eq.
  destruct (json_loads _ _ r) as [v|[| |]];
    [apply display_results_indep | split; reflexivity ..].
Qed.

Lemma pipeline_eq W jd f s :
  pipeline W jd f s =
  match extract_pdf_text W f with
  | Raises e =>
      (Raise (External H_extract_pdf_text e), s,
       [spinner_enter msg_spinner; call_extract_pdf_text f; spinner_exit])
  | Returns t =>
      match prepare_prompt W t jd with
      | Raises e =>
          (Raise (External H_prepare_prompt e), s,
           [spinner_enter msg_spinner; call_extract_pdf_text f;
            call_prepare_prompt t jd; spinner_exit])
      | Returns p =>
          match get_gemini_response W p with
          | Raises e =>
              (Raise (External H_get_gemini_response e), s,
               [spinner_enter msg_spinner; call_extract_pdf_text f;
                call_prepare_prompt t jd; call_get_gemini_response p; spinner_exit])
          | Returns r =>
              (completion_of (handle_response W r s), s,
               spinner_enter msg_spinner :: call_extract_pdf_text f ::
               call_prepare_prompt t jd :: call_get_gemini_response p ::
               events_of (handle_response W r s) ++ [spinner_exit])
          end
      end
  end.
Proof.
  unfold pipeline, with_block, try_finally, invoke.
  unfold bind at 1. unfold emit at 1.
  unfold bind at 1.
  destruct (extract_pdf_text W f) as [t|e]; [|reflexivity].
  unfold bind at 1.
  destruct (prepare_prompt W t jd) as [p|e]; [|reflexivity].
  unfold bind at 1.
  destruct (get_gemini_response W p) as [r|e]; [|reflexivity].
  pose proof (handle_response_state W r s) as Hs.
  unfold completion_of, events_of, state_of in *.
  destruct (handle_response W r s) as [[c s'] l]. simpl in Hs. subst s'.
  unfold emit. cbn [app fst snd].
  destruct c; reflexivity.
Qed.

Lemma on_click_eq W jd file s :
  on_click W jd file s =
  match jd, file with
  | [], _ => (Return_, s, [st_warning msg_no_jd])
  | _ :: _, None => (Return_, s, [st_warning msg_no_resume])
  | _ :: _, Some f =>
      let r := pipeline W jd f (armed s) in
      (handled (completion_of r), cleared s,
       set_processing true :: events_of r ++ handler_events (completion_of r)
         ++ [set_processing false])
  end.
Proof.
  unfold on_click.
  destruct jd as [|c jd]; [reflexivity|].
  destruct file as [f|]; [|reflexivity].
  unfold bind at 1. unfold write_processing at 1.
  fold (armed s). unfold try_finally, try_except.
  assert (Hs : state_of (pipeline W (c :: jd) f (armed s)) = armed s).
  { rewrite pipeline_eq. unfold state_of. repeat (break_match; try reflexivity). }
  cbv zeta. unfold completion_of, events_of, state_of in *.
  destruct (pipeline W (c :: jd) f (armed s)) as [[cp sp] lp].
  simpl in Hs. subst sp. cbn [fst snd].
  destruct cp as [[]| |e]; cbn [handled handler_events].
  - reflexivity.
  - reflexivity.
  - destruct (is_Exception e).
    + cbv [emit write_processing cleared armed]. cbn [app environ_GOOGLE_API_KEY].
      rewrite <- app_assoc. reflexivity.
    + reflexivity.
Qed.

Lemma handle_response_events W r s e :
  In e (events_of (handle_response W r s)) -> is_pipeline_call e = false /\ is_client_call e = false
     /\ (forall b, e <> set_processing b) /\ (forall l d, e <> st_button l d).
Proof.
  rewrite handle_response_eq. unfold events_of.
  destruct (json_loads _ _ r) as [v|[| |]]; [rewrite display_results_eq|..];
  repeat (break_match; cbn [snd In]);
    intros H; repeat (destruct H as [H|H]; [subst e; repeat split; intros; discriminate|]);
    contradiction.
Qed.

Lemma handle_response_raises W r s e :
  completion_of (handle_response W r s) = Raise e -> is_Exception e = true.
Proof.
  rewrite handle_response_eq. unfold completion_of.
  destruct (json_loads _ _ r) as [v|[| |]]; [rewrite display_results_eq|..];
  repeat (break_match; cbn [fst]); intros H; inversion H; reflexivity.
Qed.

Lemma after_button_app_button pre lbl d l :
  (forall lbl' d', ~ In (st_button lbl' d') pre) ->
  after_button (pre ++ st_button lbl d :: l) = l.
Proof.
  induction pre as [|e pre IH]; intros H; [reflexivity|].
  cbn [app after_button].
  destruct e; try (apply IH; intros lbl' d' Hin; apply (H lbl' d'); right; exact Hin).
  exfalso. eapply H. left. reflexivity.
Qed.

Lemma init_events_no_button s lbl d : ~ In (st_button lbl d) (init_events s).
Proof.
  unfold init_events. destruct (session_processing s); cbn; intuition discriminate.
Qed.

Lemma after_button_page s k l :
  after_button (init_events s ++ call_configure_genai k :: page_events
                  ++ st_button (u "Analyze Resume") (guard s) :: l) = l.
Proof.
  change (init_events s ++ call_configure_genai k :: page_events
            ++ st_button (u "Analyze Resume") (guard s) :: l)
    with (init_events s ++ (call_configure_genai k :: page_events)
            ++ st_button (u "Analyze Resume") (guard s) :: l).
  rewrite app_assoc. apply after_button_app_button.
  intros lbl d Hin. apply in_app_or in Hin. destruct Hin as [Hin|Hin].
  - exact (init_events_no_button _ _ _ Hin).
  - unfold page_events in Hin. cbn [In] in Hin.
    repeat (destruct Hin as [Hin|Hin]; [discriminate|]). contradiction.
Qed.

Lemma displayed_init s : displayed (init_events s) = [].
Proof. unfold init_events. destruct (session_processing s); reflexivity. Qed.

Lemma displayed_handler c : displayed (handler_events c) = handler_events c.
Proof.
  destruct c as [a| |e]; try reflexivity.
  cbn [handler_events]. destruct (is_Exception e); reflexivity.
Qed.

Lemma signals_handler c : filter is_signal (handler_events c) = [].
Proof.
  destruct c as [a| |e]; try reflexivity.
  cbn [handler_events]. destruct (is_Exception e); reflexivity.
Qed.

Lemma main_reaches W s f t p r :
  reaches_response W s f t p r ->
  let h := handle_response W r (armed (ready W s)) in
  main W s =
  (called (handled (completion_of h)),
   cleared (ready W s),
   init_events s ++ call_configure_genai (credential W s) :: page_events ++
   st_button (u "Analyze Resume") (guard s) ::
   set_processing true :: (spinner_enter msg_spinner :: call_extract_pdf_text f ::
     call_prepare_prompt t (text_area_input W) :: call_get_gemini_response p ::
     events_of h ++ [spinner_exit]) ++ handler_events (completion_of h) ++ [set_processing false]).
Proof.
  intros [Hk Hc Hb Hjd Hf Ht Hp Hr]. cbv zeta.
  rewrite main_eq. cbv zeta. rewrite Hk, Hc. unfold submits in Hb. rewrite Hb.
  rewrite on_click_eq, Hf.
  destruct (text_area_input W) as [|c jd] eqn:Ejd; [congruence|].
  cbv zeta. rewrite pipeline_eq, Ht, Hp, Hr.
  unfold completion_of at 1 3. unfold events_of at 1. cbn [fst snd].
  reflexivity.
Qed.

Lemma model_returned_reaches W s r :
  model_returned W s r -> exists f t p, reaches_response W s f t p r.
Proof.
  intros (p & Hin & Hr). rewrite main_eq in Hin. cbv zeta in Hin.
  assert (Hinit : ~ In (call_get_gemini_response p) (init_events s)).
  { unfold init_events. destruct (session_processing s); cbn; intuition discriminate. }
  assert (Hpage : forall l, In (call_get_gemini_response p)
             (init_events s ++ call_configure_genai (credential W s) :: page_events ++ l) ->
             In (call_get_gemini_response p) l).
  { intros l H. apply in_app_or in H. destruct H as [H|H]; [contradiction|].
    unfold page_events in H. cbn [In app] in H.
    repeat (destruct H as [H|H]; [discriminate|]). exact H. }
  destruct (truthy (credential W s)) eqn:Hk.
  2:{ exfalso. apply (Hpage []). cbn [events_of snd] in Hin.
      apply in_app_or in Hin. destruct Hin as [Hin|Hin]; [contradiction|].
      cbn in Hin. intuition discriminate. }
  destruct (configure_genai W (credential W s)) as [[]|e] eqn:Hc.
  2:{ exfalso. destruct (derives_Exception e); cbn [events_of snd] in Hin;
      apply in_app_or in Hin; destruct Hin as [Hin|Hin]; try contradiction;
      cbn in Hin; intuition discriminate. }
  destruct (button_pressed W (guard s)) eqn:Hb.
  2:{ exfalso. cbn [events_of snd] in Hin. apply Hpage in Hin. cbn in Hin. intuition discriminate. }
  rewrite on_click_eq in Hin.
  destruct (text_area_input W) as [|c jd] eqn:Ejd.
  { exfalso. cbn [events_of snd] in Hin. apply Hpage in Hin. cbn in Hin. intuition discriminate. }
  destruct (file_uploader_input W) as [f|] eqn:Ef.
  2:{ exfalso. cbn [events_of snd] in Hin. apply Hpage in Hin. cbn in Hin. intuition discriminate. }
  cbv zeta in Hin. rewrite pipeline_eq in Hin.
  assert (Hh : forall c, ~ In (call_get_gemini_response p) (handler_events c ++ [set_processing false])).
  { intros [a| |e0]; cbn [handler_events]; try (cbn; intuition discriminate).
    destruct (is_Exception e0); cbn; intuition discriminate. }
  destruct (extract_pdf_text W f) as [t|e] eqn:Ht.
  2:{ exfalso. cbn [events_of snd completion_of fst] in Hin. apply Hpage in Hin.
      cbn [In app] in Hin.
      repeat (destruct Hin as [Hin|Hin]; [discriminate|]). exact (Hh _ Hin). }
  destruct (prepare_prompt W t (c :: jd)) as [p0|e] eqn:Hp.
  2:{ exfalso. cbn [events_of snd completion_of fst] in Hin. apply Hpage in Hin.
      cbn [In app] in Hin.
      repeat (destruct Hin as [Hin|Hin]; [discriminate|]). exact (Hh _ Hin). }
  destruct (get_gemini_response W p0) as [r0|e] eqn:Hr0.
  2:{ exfalso. cbn [events_of snd completion_of fst] in Hin. apply Hpage in Hin.
      cbn [In app] in Hin.
      repeat (destruct Hin as [Hin|Hin]; [try discriminate|]).
      - inversion Hin; subst. congruence.
      - exact (Hh _ Hin). }
  cbn [events_of snd completion_of fst] in Hin. apply Hpage in Hin.
  cbn [In app] in Hin.
  repeat (destruct Hin as [Hin|Hin]; [try discriminate|]).
  - inversion Hin; subst p0. assert (r0 = r) by congruence. subst r0.
    exists f, t, p. constructor; try assumption.
    + rewrite Ejd. discriminate.
    + rewrite Ejd. exact Hp.
  - exfalso. apply in_app_or in Hin. destruct Hin as [Hin|Hin].
    + apply in_app_or in Hin. destruct Hin as [Hin|Hin].
      * apply handle_response_events in Hin. destruct Hin as (Hin & _). discriminate.
      * cbn in Hin. intuition discriminate.
    + exact (Hh _ Hin).
Qed.

Lemma displayed_page s k l :
  displayed (init_events s ++ call_configure_genai k :: page_events ++ l) = displayed l.
Proof.
  unfold displayed. rewrite filter_app. fold (displayed (init_events s)).
  rewrite displayed_init. reflexivity.
Qed.

Lemma displayed_prologue s l :
  displayed (init_events s ++ l) = displayed l.
Proof.
  unfold displayed. rewrite filter_app. fold (displayed (init_events s)).
  rewrite displayed_init. reflexivity.
Qed.

Lemma signals_page s k l :
  output_signals (init_events s ++ call_configure_genai k :: page_events
                    ++ st_button (u "Analyze Resume") (guard s) :: l) = filter is_signal l.
Proof. unfold output_signals. rewrite after_button_page. reflexivity. Qed.

Lemma main_observed W s r :
  model_returned W s r ->
  let h := handle_response W r s in
  completion_of (main W s) = Normal tt /\
  state_of (main W s) = cleared (ready W s) /\
  displayed (events_of (main W s)) = displayed (events_of h) ++ handler_events (completion_of h) /\
  output_signals (events_of (main W s)) = filter is_signal (events_of h).
Proof.
  intros Hm. apply model_returned_reaches in Hm. destruct Hm as (f & t & p & Hm).
  cbv zeta. rewrite (main_reaches Hm). cbv zeta.
  destruct (handle_response_indep W r s (armed (ready W s))) as [Hc He].
  rewrite Hc, He. clear Hc He.
  set (h := handle_response W r (armed (ready W s))).
  pose proof (@handle_response_raises W r (armed (ready W s))) as Hx. fold h in Hx.
  generalize dependent (completion_of h). generalize (events_of h). clear h.
  intros l c Hx.
  cbn [completion_of state_of events_of fst snd].
  repeat split.
  - destruct c as [[]| |e]; try reflexivity.
    cbn [handled]. rewrite (Hx e eq_refl). reflexivity.
  - rewrite displayed_page. unfold displayed. cbn [filter is_display app].
    rewrite !filter_app. cbn [filter is_display app].
    fold (displayed (handler_events c)).
    rewrite displayed_handler, !app_nil_r. reflexivity.
  - rewrite signals_page. cbn [filter is_signal app].
    rewrite !filter_app. cbn [filter is_signal app].
    rewrite signals_handler, !app_nil_r. reflexivity.
Qed.

Lemma submitted_inv W s :
  submitted W s ->
  truthy (credential W s) = true /\
  configure_genai W (credential W s) = Returns tt /\
  submits W s.
Proof.
  intros [Hin Hb]. rewrite main_eq in Hin. cbv zeta in Hin.
  assert (Hinit : ~ In (st_button (u "Analyze Resume") (guard s)) (init_events s))
    by apply init_events_no_button.
  destruct (truthy (credential W s)).
  2:{ exfalso. cbn [events_of snd] in Hin. apply in_app_or in Hin.
      destruct Hin as [Hin|Hin]; [contradiction|]. cbn in Hin. intuition discriminate. }
  destruct (configure_genai W (credential W s)) as [[]|e].
  2:{ exfalso. destruct (derives_Exception e); cbn [events_of snd] in Hin;
      apply in_app_or in Hin; destruct Hin as [Hin|Hin]; try contradiction;
      cbn in Hin; intuition discriminate. }
  repeat split. exact Hb.
Qed.

Lemma main_submitted W s :
  submitted W s ->
  main W s =
  let r := on_click W (text_area_input W) (file_uploader_input W) (ready W s) in
  (called (completion_of r), state_of r,
   init_events s ++ call_configure_genai (credential W s) :: page_events
     ++ st_button (u "Analyze Resume") (guard s) :: events_of r).
Proof.
  intros H. destruct (submitted_inv H) as (Hk & Hc & Hb). unfold submits in Hb.
  rewrite main_eq. cbv zeta. rewrite Hk, Hc, Hb.
  destruct (on_click _ _ _ _) as [[c s2] l]. reflexivity.
Qed.

Lemma pipeline_calls_page s k l :
  pipeline_calls (init_events s ++ call_configure_genai k :: page_events ++ l)
  = pipeline_calls l.
Proof. unfold init_events. destruct (session_processing s); reflexivity. Qed.

Lemma init_events_no_set_true s : ~ In (set_processing true) (init_events s).
Proof.
  unfold init_events. destruct (session_processing s); cbn; intuition discriminate.
Qed.

Lemma set_true_page s k l :
  In (set_processing true) (init_events s ++ call_configure_genai k :: page_events ++ l) ->
  In (set_processing true) l.
Proof.
  unfold init_events, page_events.
  destruct (session_processing s); cbn [In app]; intros H;
    repeat (destruct H as [H|H]; [discriminate|]); exact H.
Qed.

Lemma client_calls_init s l :
  client_calls (init_events s ++ l) = client_calls l.
Proof. unfold init_events. destruct (session_processing s); reflexivity. Qed.

Lemma main_no_credential W s :
  truthy (credential W s) = false ->
  main W s = (Normal tt, ready W s, init_events s ++ [st_error (Text msg_no_api_key)]).
Proof. intros H. rewrite main_eq. cbv zeta. rewrite H. reflexivity. Qed.

Ltac observe :=
  cbn [completion_of state_of events_of fst snd called handled handler_events is_Exception];
  rewrite ?displayed_page, ?displayed_prologue, ?signals_page;
  unfold ready, cleared; cbn [session_processing].

(** What a run shows of an answer decoded to the object [d]. *)
Lemma main_displays W s r d :
  model_returned W s r ->
  json_loads (nesting_limit W) (int_digits_limit W) r = Decoded (VDict d) ->
  let m := dict_get d key_match (VStr (u "N/A")) in
  let kw := dict_get d key_keywords (VList []) in
  let sm := dict_get d key_summary (VStr msg_no_summary) in
  completion_of (main W s) = Normal tt /\
  output_signals (events_of (main W s)) = shown_signals m kw sm /\
  displayed (events_of (main W s)) = failure_message (render_failure m kw sm).
Proof.
  intros Hm Hj m kw sm.
  destruct (main_observed Hm) as (Hc & _ & Hd & Ho).
  rewrite Hc, Hd, Ho. rewrite handle_response_eq, Hj, display_results_eq.
  cbv zeta. fold m kw sm. unfold shown_signals, render_failure, shows_score.
  destruct (metric_accepts m); [|repeat split].
  destruct (displayable m); [|repeat split]. cbn [andb].
  destruct (keywords_text kw) as [text|]; [|repeat split].
  destruct (encodable text); [|repeat split].
  destruct (displayable sm); repeat split.
Qed.

(** The complete result, when every field can be rendered. *)
Lemma main_displays_all W s r d :
  model_returned W s r ->
  json_loads (nesting_limit W) (int_digits_limit W) r = Decoded (VDict d) ->
  let m := dict_get d key_match (VStr (u "N/A")) in
  let kw := dict_get d key_keywords (VList []) in
  let sm := dict_get d key_summary (VStr msg_no_summary) in
  shows_score m = true ->
  forall text, keywords_text kw = Some text ->
  encodable text = true ->
  displayable sm = true ->
  completion_of (main W s) = Normal tt /\
  output_signals (events_of (main W s)) = result_signals m (VStr text) sm /\
  displayed (events_of (main W s)) = [].
Proof.
  intros Hm Hj m kw sm Ha text Hk He Hs.
  destruct (main_displays Hm Hj) as (Hc & Ho & Hd). fold m kw sm in Ho, Hd.
  rewrite Hc, Ho, Hd. unfold shown_signals, render_failure.
  rewrite Ha. unfold shows_score in Ha. apply andb_prop in Ha. destruct Ha as [-> ->].
  rewrite Hk, He, Hs. repeat split.
Qed.

Lemma dict_get_absent d k v : dict_lookup d k = None -> dict_get d k v = v.
Proof. unfold dict_get. intros ->. reflexivity. Qed.

Lemma dict_get_present d k v w : dict_lookup d k = Some w -> dict_get d k v = w.
Proof. unfold dict_get. intros ->. reflexivity. Qed.

Lemma all_str_map ks : all_str (map VStr ks) = Some ks.
Proof. induction ks as [|k ks IH]; [reflexivity|]. cbn. rewrite IH. reflexivity. Qed.

(** [join] is the joining of the specification. *)
Lemma join_joined_with sep parts : join sep parts = joined_with sep parts.
Proof.
  destruct parts as [|p rest]; [reflexivity|].
  revert p. induction rest as [|q rest IH]; intros p.
  - cbn. rewrite app_nil_r. reflexivity.
  - change (join sep (p :: q :: rest)) with (p ++ sep ++ join sep (q :: rest)).
    rewrite IH. cbn. rewrite <- !app_assoc. reflexivity.
Qed.

Lemma encodable_app a b : encodable (a ++ b) = encodable a && encodable b.
Proof. unfold encodable. apply forallb_app. Qed.

(** Joining the characters of a text with [, ] adds no surrogate. *)
Lemma encodable_join_chars s :
  encodable (join (u ", ") (map (fun c => [c]) s)) = encodable s.
Proof.
  destruct s as [|c s]; [reflexivity|].
  revert c. induction s as [|c' s IH]; intros c.
  - reflexivity.
  - change (join (u ", ") (map (fun c => [c]) (c :: c' :: s)))
      with ([c] ++ u ", " ++ join (u ", ") (map (fun c => [c]) (c' :: s))).
    rewrite !encodable_app, IH.
    change (encodable (u ", ")) with true.
    unfold encodable. cbn [forallb andb]. rewrite andb_true_r. reflexivity.
Qed.

Lemma kind_of_other x :
  other_failure x = true -> kind_of (st_error (TextExn msg_error_occurred x)) = None.
Proof.
  intros H. destruct x as [h e| | | | | | | |]; try reflexivity.
  destruct h; try reflexivity; discriminate.
Qed.

End RunFacts.

(* ================================================================= *)
(** ** Properties of the script *)

Import Py Json St App Obs Samples JsonFacts RunFacts.

(** Decides membership of a concrete event in a concrete log. *)
Ltac find_event := vm_compute; repeat (first [left; reflexivity | right]).

(** Shows that the sample run reaches the model's answer. *)
Ltac sample_returned :=
  exists sample_prompt; split; [find_event | reflexivity].

(** Unfolds a run into its cases: one goal per way through [main]. *)
Ltac run_cases W s :=
  rewrite (main_eq W s) in *; cbv zeta in *;
  destruct (truthy (credential W s)) eqn:Hkey;
  [ destruct (configure_genai W (credential W s)) as [[]|?] eqn:Hcfg;
    [ destruct (button_pressed W (guard s)) eqn:Hbtn;
      [ rewrite on_click_eq in *;
        destruct (text_area_input W) as [|? ?] eqn:Hjd;
        [ | destruct (file_uploader_input W) as [?|] eqn:Hfile;
            [ cbv zeta in *; rewrite pipeline_eq in *;
              destruct (extract_pdf_text W _) as [?|?] eqn:Hext;
              [ destruct (prepare_prompt W _ _) as [?|?] eqn:Hprep;
                [ destruct (get_gemini_response W _) as [?|?] eqn:Hmod;
                  [ rewrite handle_response_eq in *;
                    destruct (json_loads _ _ _) as [[ | | | | | |?]|[| |]] eqn:Hjson;
                    [ rewrite display_results_eq in * ..
                    | rewrite display_results_eq in *; cbv zeta in *;
                      destruct (metric_accepts _) eqn:Hmet;
                      [ destruct (displayable (dict_get _ key_match _)) eqn:Hscore;
                        [ destruct (keywords_text _) eqn:Hkw;
                          [ destruct (encodable _) eqn:Henc;
                            [ destruct (displayable (dict_get _ key_summary _)) eqn:Hsum | ]
                          | ]
                        | ]
                      | ]
                    | | | ]
                  | cbn [completion_of fst handled handler_events is_Exception] in *;
                    destruct (derives_Exception _) eqn:Hder ]
                | cbn [completion_of fst handled handler_events is_Exception] in *;
                  destruct (derives_Exception _) eqn:Hder ]
              | cbn [completion_of fst handled handler_events is_Exception] in *;
                destruct (derives_Exception _) eqn:Hder ]
            | ] ]
      | ]
    | destruct (derives_Exception _) eqn:Hder ]
  | ];
  cbn [completion_of state_of events_of fst snd called handled handler_events
       is_Exception exn_of app] in *.

Lemma signals_prologue s l : output_signals (init_events s ++ l) = output_signals l.
Proof. unfold init_events. destruct (session_processing s); reflexivity. Qed.

Lemma pipeline_calls_prologue s l : pipeline_calls (init_events s ++ l) = pipeline_calls l.
Proof. unfold init_events. destruct (session_processing s); reflexivity. Qed.

(** Brings the observations of a run to the part that follows its fixed prefix. *)
Ltac past_prefix :=
  rewrite ?displayed_page, ?signals_page, ?pipeline_calls_page,
          ?displayed_prologue, ?signals_prologue, ?pipeline_calls_prologue in *.

(** The four ways a run can end exclude one another, and a message has one
    kind. *)
Lemma ways_exclusive (r : run) :
  ~ (ends_in_result r /\ exists k, ends_in k r) /\
  ~ (ends_in_result r /\ ends_in_other_failure r) /\
  ~ (ends_in_result r /\ escapes r) /\
  ~ ((exists k, ends_in k r) /\ ends_in_other_failure r) /\
  ~ ((exists k, ends_in k r) /\ escapes r) /\
  ~ (ends_in_other_failure r /\ escapes r) /\
  (forall k k', ends_in k r -> ends_in k' r -> k = k').
Proof.
  unfold ends_in_result, ends_in, ends_in_other_failure, escapes.
  repeat split.
  - intros [(_ & _ & Hd) (k & _ & e & He & _)]. congruence.
  - intros [(_ & _ & Hd) (_ & x & He & _)]. congruence.
  - intros [(Hc & _) (h & x & Hc' & _)]. congruence.
  - intros [(k & _ & e & He & Hk) (_ & x & Hx & Ho)].
    rewrite Hx in He. inversion He; subst e.
    rewrite (kind_of_other _ Ho) in Hk. discriminate.
  - intros [(k & Hc & _) (h & x & Hc' & _)]. congruence.
  - intros [(Hc & _) (h & x & Hc' & _)]. congruence.
  - intros k k' (_ & e & He & Hk) (_ & e' & He' & Hk').
    rewrite He' in He. inversion He; subst e'. congruence.
Qed.

(** C1, as the specification states it, fails.  The text made of three
    thousand opening brackets is not valid JSON, yet the run does not
    display the parse error: [json.loads] gives up with a [RecursionError]
    before it reaches the end of the text, [except json.JSONDecodeError]
    does not catch it, and the generic handler displays
    [An error occurred: ...], which is not a ResponseFormatError. *)
Lemma C1_counterexample :
  model_returned (world_answering raw_deep) fresh raw_deep /\
  valid_json raw_deep = false /\
  displayed (events_of (main (world_answering raw_deep) fresh)) =
    [st_error (TextExn msg_error_occurred RecursionError)] /\
  ~ In (st_error (Text msg_parse_error)) (events_of (main (world_answering raw_deep) fresh)) /\
  ~ ends_in ResponseFormatError (main (world_answering raw_deep) fresh).
Proof.
  split; [sample_returned|].
  split; [vm_compute; reflexivity|].
  assert (Hd : displayed (events_of (main (world_answering raw_deep) fresh)) =
               [st_error (TextExn msg_error_occurred RecursionError)])
    by (vm_compute; reflexivity).
  split; [exact Hd|]. split.
  - intros H.
    assert (Hin : In (st_error (Text msg_parse_error))
                     (displayed (events_of (main (world_answering raw_deep) fresh)))).
    { unfold displayed. apply filter_In. split; [exact H | reflexivity]. }
    rewrite Hd in Hin. destruct Hin as [Hin|[]]. discriminate.
  - intros (_ & e & He & Hk). rewrite Hd in He. inversion He; subst e.
    vm_compute in Hk. discriminate.
Qed.

(** C1, amended.  Whenever the model client returned a text that is not
    valid JSON, [json.loads] raises, [main] returns normally and none of the
    three output signals is emitted.  What is displayed depends on the
    exception: for a [JSONDecodeError] exactly the parse error
    [Error parsing response. Please try again.], the ResponseFormatError of
    the taxonomy; for a [RecursionError] (nesting deeper than the
    interpreter follows) or a [ValueError] (an integer literal longer than
    the interpreter converts), which [json.loads] raises before it reaches
    the syntax error, exactly the generic [An error occurred: ...].  The
    parse error is what is displayed whenever the text is no longer than
    the nesting and the digits the interpreter allows. *)
Theorem C1_parse_failure W s r :
  model_returned W s r ->
  valid_json r = false ->
  completion_of (main W s) = Normal tt /\
  output_signals (events_of (main W s)) = [] /\
  (exists f,
     json_loads (nesting_limit W) (int_digits_limit W) r = Raised f /\
     match f with
     | NotJSON =>
         displayed (events_of (main W s)) = [st_error (Text msg_parse_error)] /\
         ends_in ResponseFormatError (main W s)
     | TooDeep | IntTooLong =>
         displayed (events_of (main W s)) =
           [st_error (TextExn msg_error_occurred (exn_of f))]
     end) /\
  (List.length r <= nesting_limit W ->
   (forall m, int_digits_limit W = Some m -> List.length r <= m) ->
   displayed (events_of (main W s)) = [st_error (Text msg_parse_error)] /\
   ends_in ResponseFormatError (main W s)).
Proof.
  intros Hm Hv. destruct (main_observed Hm) as (Hc & _ & Hd & Ho).
  rewrite handle_response_eq in Hd, Ho.
  destruct (json_loads (nesting_limit W) (int_digits_limit W) r) as [v|f] eqn:Hj.
  { apply json_loads_valid in Hj. congruence. }
  assert (Hparse : f = NotJSON ->
            displayed (events_of (main W s)) = [st_error (Text msg_parse_error)] /\
            ends_in ResponseFormatError (main W s)).
  { intros ->. cbn in Hd. split; [exact Hd|]. split; [exact Hc|].
    exists (st_error (Text msg_parse_error)). split; [exact Hd | reflexivity]. }
  split; [exact Hc|]. split; [destruct f; exact Ho|]. split.
  - exists f. split; [reflexivity|].
    destruct f; [apply Hparse; reflexivity | exact Hd | exact Hd].
  - intros Hn Hi. apply Hparse. exact (json_loads_ample _ Hn Hi Hj).
Qed.

Lemma C1_parse_failure_witness :
  model_returned (world_answering raw_not_json) fresh raw_not_json /\
  valid_json raw_not_json = false /\
  displayed (events_of (main (world_answering raw_not_json) fresh))
    = [st_error (Text msg_parse_error)] /\
  output_signals (events_of (main (world_answering raw_not_json) fresh)) = [].
Proof.
  assert (Hm : model_returned (world_answering raw_not_json) fresh raw_not_json)
    by sample_returned.
  assert (Hv : valid_json raw_not_json = false) by (vm_compute; reflexivity).
  pose proof (@C1_parse_failure (world_answering raw_not_json) fresh raw_not_json Hm Hv)
    as (_ & Ho & _ & Hshort).
  assert (Hn : List.length raw_not_json <= nesting_limit (world_answering raw_not_json))
    by (apply Nat.leb_le; vm_compute; reflexivity).
  assert (Hi : forall m, int_digits_limit (world_answering raw_not_json) = Some m ->
                         List.length raw_not_json <= m).
  { intros m H. vm_compute in H. inversion H. apply Nat.leb_le. vm_compute. reflexivity. }
  exact (conj Hm (conj Hv (conj (proj1 (Hshort Hn Hi)) Ho))).
Defined.

(** C2.  In every run that sets [st.session_state.processing] to [True],
    whatever the helpers do and however the pipeline ends (normal
    completion, the early [return] after a JSON parse failure, an exception
    caught by [except Exception], or an exception that propagates out of
    [main]), the last effect of the run is the assignment of [False] by the
    [finally] clause, and the flag is [False] in the state the run leaves. *)
Theorem C2_guard_reset W s :
  In (set_processing true) (events_of (main W s)) ->
  session_processing (state_of (main W s)) = Some false /\
  exists l1 l2,
    events_of (main W s) = l1 ++ set_processing true :: l2 ++ [set_processing false].
Proof.
  intros Hin. rewrite main_eq in *. cbv zeta in *.
  destruct (truthy (credential W s)).
  2:{ exfalso. cbn [events_of snd] in Hin. apply in_app_or in Hin.
      destruct Hin as [Hin|Hin]; [exact (init_events_no_set_true _ Hin)|].
      cbn in Hin. intuition discriminate. }
  destruct (configure_genai W (credential W s)) as [[]|e].
  2:{ exfalso. destruct (derives_Exception e); cbn [events_of snd] in Hin;
      apply in_app_or in Hin; destruct Hin as [Hin|Hin];
      try exact (init_events_no_set_true _ Hin);
      cbn in Hin; intuition discriminate. }
  destruct (button_pressed W (guard s)).
  2:{ exfalso. cbn [events_of snd] in Hin. apply set_true_page in Hin.
      cbn in Hin. intuition discriminate. }
  rewrite on_click_eq in *.
  destruct (text_area_input W) as [|c jd].
  { exfalso. cbn [events_of snd] in Hin. apply set_true_page in Hin.
    cbn in Hin. intuition discriminate. }
  destruct (file_uploader_input W) as [f|].
  2:{ exfalso. cbn [events_of snd] in Hin. apply set_true_page in Hin.
      cbn in Hin. intuition discriminate. }
  cbv zeta. cbn [state_of events_of fst snd]. split; [reflexivity|].
  exists (init_events s ++ call_configure_genai (credential W s) :: page_events
            ++ [st_button (u "Analyze Resume") (guard s)]).
  exists (snd (pipeline W (c :: jd) f (armed (ready W s)))
            ++ handler_events (completion_of (pipeline W (c :: jd) f (armed (ready W s))))).
  rewrite <- !app_assoc. cbn [app]. rewrite <- !app_assoc. reflexivity.
Qed.

Lemma C2_guard_reset_witness :
  In (set_processing true) (events_of (main world_interrupted fresh)) /\
  session_processing (state_of (main world_interrupted fresh)) = Some false.
Proof.
  assert (Hin : In (set_processing true) (events_of (main world_interrupted fresh)))
    by find_event.
  exact (conj Hin (proj1 (@C2_guard_reset world_interrupted fresh Hin))).
Defined.

(** C3, as the specification states it, fails.  With the decoded answer
    [[]] (valid JSON, not an object) the run shows the success banner, then
    [response_json.get] raises and the generic handler displays
    [An error occurred: ...]: no output signal was emitted, and the error is
    none of the five kinds.  And when the model client raises an exception
    that does not derive from [Exception], [except Exception] does not
    catch it and it leaves [main]. *)
Lemma C3_counterexample :
  (submits (world_answering raw_array) fresh /\
   ~ result_or_defined_error (main (world_answering raw_array) fresh)) /\
  (submits world_interrupted fresh /\
   ~ result_or_defined_error (main world_interrupted fresh)).
Proof.
  split; (split; [reflexivity|]).
  - intros [[_ (m & k & sm & H)] | (k & _ & e & Hd & Hk)].
    + vm_compute in H. discriminate.
    + vm_compute in Hd. inversion Hd; subst e. vm_compute in Hk. discriminate.
  - intros [[Hc _] | (k & Hc & _)]; vm_compute in Hc; discriminate.
Qed.

(** C3, amended.  When the user presses the button, a run of [main] ends in
    exactly one of four ways: (a) it returns after emitting the three output
    signals and no error message; (b) it returns after displaying exactly
    one message of exactly one of the five kinds (configuration, validation,
    extraction, transport, response format); (c) it returns after displaying
    exactly one generic [An error occurred] message for an exception that
    comes neither from the PDF extractor nor from the model client: raised
    by the prompt builder, by [json.loads] as a [RecursionError] or a
    [ValueError], by [.get] on a decoded answer that is not an object, or by
    [st.metric], [str.join] or [st.write] on a field they cannot render,
    possibly after part of the result was shown; (d) an exception that does
    not derive from [Exception], raised by a helper, propagates out of
    [main].  No two of these hold of the same run.  No exception deriving
    from [Exception] escapes, and a run started with the guard clear leaves
    it clear. *)
Theorem C3_result_or_handled_error W s :
  submits W s ->
  let r := main W s in
  (ends_in_result r \/ (exists k, ends_in k r) \/ ends_in_other_failure r \/ escapes r) /\
  ~ (ends_in_result r /\ exists k, ends_in k r) /\
  ~ (ends_in_result r /\ ends_in_other_failure r) /\
  ~ (ends_in_result r /\ escapes r) /\
  ~ ((exists k, ends_in k r) /\ ends_in_other_failure r) /\
  ~ ((exists k, ends_in k r) /\ escapes r) /\
  ~ (ends_in_other_failure r /\ escapes r) /\
  (forall k k', ends_in k r -> ends_in k' r -> k = k') /\
  (forall x, completion_of r = Raise x -> is_Exception x = false) /\
  (guard s = false -> session_processing (state_of r) = Some false).
Proof.
  intros Hb. unfold submits in Hb. cbv zeta.
  pose proof (ways_exclusive (main W s)) as (E1 & E2 & E3 & E4 & E5 & E6 & E7).
  split; [|repeat (split; [assumption|])].
  - clear E1 E2 E3 E4 E5 E6 E7.
    unfold ends_in_result, ends_in, ends_in_other_failure, escapes, full_result.
    run_cases W s; try discriminate; past_prefix;
      first
        [ left; split; [reflexivity|]; split; [do 3 eexists; reflexivity | reflexivity]
        | right; left; eexists; split; [reflexivity|]; eexists; split; reflexivity
        | right; right; left; split; [reflexivity|]; eexists; split; reflexivity
        | right; right; right; do 2 eexists; split; [reflexivity | assumption] ].
  - clear E1 E2 E3 E4 E5 E6 E7. split.
    + intros x. run_cases W s; intros H; try discriminate;
        inversion H; subst; cbn [is_Exception]; assumption.
    + intros Hg. run_cases W s; unfold ready, cleared; cbn [session_processing];
        rewrite ?Hg; reflexivity.
Qed.

Lemma C3_result_or_handled_error_witness :
  submits (world_answering raw_array) fresh /\
  (guard fresh = false ->
   session_processing (state_of (main (world_answering raw_array) fresh)) = Some false).
Proof.
  assert (Hb : submits (world_answering raw_array) fresh) by reflexivity.
  exact (conj Hb (proj2 (proj2 (proj2 (proj2 (proj2 (proj2 (proj2 (proj2 (proj2
           (@C3_result_or_handled_error (world_answering raw_array) fresh Hb))))))))))).
Defined.

(** C4, as the specification states it, fails.  The answer
    [{MissingKeywords: 5}] is a valid JSON object that holds one of the
    three keys.  The score is looked up and shown with its default [N/A];
    then [str.join] raises on the number, and the statement that looks up
    [Profile Summary] is never reached: the default
    [No summary available] is not yielded, and the run ends with the
    generic error instead of a result. *)
Lemma C4_counterexample :
  model_returned (world_answering raw_keywords_number) fresh raw_keywords_number /\
  json_loads (nesting_limit (world_answering raw_keywords_number))
             (int_digits_limit (world_answering raw_keywords_number))
             raw_keywords_number = Decoded (VDict [(key_keywords, VInt 5)]) /\
  dict_lookup [(key_keywords, VInt 5)] key_summary = None /\
  output_signals (events_of (main (world_answering raw_keywords_number) fresh)) =
    [st_metric (u "Match Score") (VStr (u "N/A"))] /\
  ~ In (st_write (VStr msg_no_summary))
       (events_of (main (world_answering raw_keywords_number) fresh)) /\
  ~ full_result (events_of (main (world_answering raw_keywords_number) fresh)) /\
  displayed (events_of (main (world_answering raw_keywords_number) fresh)) =
    [st_error (TextExn msg_error_occurred (TypeError_join (VInt 5)))].
Proof.
  split; [sample_returned|].
  split; [vm_compute; reflexivity|].
  split; [reflexivity|].
  assert (Ho : output_signals (events_of (main (world_answering raw_keywords_number) fresh)) =
               [st_metric (u "Match Score") (VStr (u "N/A"))])
    by (vm_compute; reflexivity).
  split; [exact Ho|]. split; [|split; [|vm_compute; reflexivity]].
  - intros H. vm_compute in H.
    repeat (destruct H as [H|H]; [discriminate|]). exact H.
  - intros (a & b & c & H). rewrite Ho in H. discriminate.
Qed.

(** C4, amended.  When the model's answer decodes to a JSON object [d], the
    score, the keywords and the summary are the values of [JD Match],
    [MissingKeywords] and [Profile Summary] in [d], each replaced, when its
    key is absent and whatever the other keys are, by its own default:
    [N/A], the empty list, [No summary available].  The fields are looked up
    and rendered one after the other, and a field is reached only if the
    fields before it could be rendered: the output signals of the run are
    exactly those [shown_signals] gives for the three values.  A run that
    displays no message emitted all three; a run that displays one displays
    the generic error and emitted fewer than three.  In particular the
    answer that holds only the summary [ok] yields the score [N/A], the
    empty keyword list (shown as the no-missing-keywords message) and the
    summary [ok], without any message. *)
Theorem C4_independent_defaults W s r :
  model_returned W s r ->
  (forall d, json_loads (nesting_limit W) (int_digits_limit W) r = Decoded (VDict d) ->
     let m := match dict_lookup d key_match with
              | Some v => v
              | None => VStr (u "N/A")
              end in
     let kw := match dict_lookup d key_keywords with
               | Some v => v
               | None => VList []
               end in
     let sm := match dict_lookup d key_summary with
               | Some v => v
               | None => VStr msg_no_summary
               end in
     output_signals (events_of (main W s)) = shown_signals m kw sm /\
     (displayed (events_of (main W s)) = [] ->
      exists text, keywords_text kw = Some text /\
        output_signals (events_of (main W s)) = result_signals m (VStr text) sm) /\
     (displayed (events_of (main W s)) <> [] ->
      List.length (output_signals (events_of (main W s))) < 3 /\
      exists x, displayed (events_of (main W s)) =
                [st_error (TextExn msg_error_occurred x)]))
  /\ (r = raw_summary_only ->
      json_loads (nesting_limit W) (int_digits_limit W) r =
        Decoded (VDict [(key_summary, VStr (u "ok"))]) /\
      dict_lookup [(key_summary, VStr (u "ok"))] key_match = None /\
      dict_lookup [(key_summary, VStr (u "ok"))] key_keywords = None /\
      output_signals (events_of (main W s)) =
        result_signals (VStr (u "N/A")) (VStr msg_no_keywords) (VStr (u "ok")) /\
      displayed (events_of (main W s)) = []).
Proof.
  intros Hm. split.
  - intros d Hj m kw sm.
    destruct (main_displays Hm Hj) as (_ & Ho & Hd).
    change (dict_get d key_match (VStr (u "N/A"))) with m in Ho, Hd.
    change (dict_get d key_keywords (VList [])) with kw in Ho, Hd.
    change (dict_get d key_summary (VStr msg_no_summary)) with sm in Ho, Hd.
    split; [exact Ho|].
    rewrite Ho, Hd. unfold shown_signals, render_failure, shows_score.
    destruct (metric_accepts m); cbn [andb].
    2:{ split; [discriminate|]. intros _. split; [cbn; lia | eexists; reflexivity]. }
    destruct (displayable m).
    2:{ split; [discriminate|]. intros _. split; [cbn; lia | eexists; reflexivity]. }
    destruct (keywords_text kw) as [text|].
    2:{ split; [discriminate|]. intros _. split; [cbn; lia | eexists; reflexivity]. }
    destruct (encodable text).
    2:{ split; [discriminate|]. intros _. split; [cbn; lia | eexists; reflexivity]. }
    destruct (displayable sm).
    + split; [|intros H; exfalso; apply H; reflexivity].
      intros _. exists text. split; reflexivity.
    + split; [discriminate|]. intros _. split; [cbn; lia | eexists; reflexivity].
  - intros ->.
    assert (Hj : json_loads (nesting_limit W) (int_digits_limit W) raw_summary_only =
                 Decoded (VDict [(key_summary, VStr (u "ok"))]))
      by (apply loads_base; vm_compute; reflexivity).
    split; [exact Hj|]. split; [reflexivity|]. split; [reflexivity|].
    destruct (main_displays Hm Hj) as (_ & Ho & Hd).
    split; [exact Ho | exact Hd].
Qed.

Lemma C4_independent_defaults_witness :
  model_returned (world_answering raw_summary_only) fresh raw_summary_only /\
  output_signals (events_of (main (world_answering raw_summary_only) fresh)) =
    result_signals (VStr (u "N/A")) (VStr msg_no_keywords) (VStr (u "ok")) /\
  displayed (events_of (main (world_answering raw_summary_only) fresh)) = [].
Proof.
  assert (Hm : model_returned (world_answering raw_summary_only) fresh raw_summary_only)
    by sample_returned.
  pose proof (@C4_independent_defaults (world_answering raw_summary_only) fresh
                raw_summary_only Hm) as [_ Hpart].
  exact (conj Hm (proj2 (proj2 (proj2 (Hpart eq_refl))))).
Defined.

(** C5.  For the answer
    [{JD Match: 82%, MissingKeywords: [Docker, Kubernetes], Profile Summary:
    Strong backend profile}] of the specification, [json.loads] yields,
    under the limits of any interpreter, the object with these three
    entries, each lookup returns the value of its key unchanged (the score
    [82%], the two keywords, the summary), and the run emits them as its
    three output signals, the keywords joined as [Docker, Kubernetes],
    without any error message. *)
Theorem C5_full_response W s :
  model_returned W s raw_full ->
  json_loads (nesting_limit W) (int_digits_limit W) raw_full = Decoded (VDict full_dict) /\
  dict_get full_dict key_match (VStr (u "N/A")) = VStr (u "82%") /\
  dict_get full_dict key_keywords (VList []) = VList [VStr (u "Docker"); VStr (u "Kubernetes")] /\
  dict_get full_dict key_summary (VStr msg_no_summary) = VStr (u "Strong backend profile") /\
  output_signals (events_of (main W s)) =
    result_signals (VStr (u "82%")) (VStr (u "Docker, Kubernetes"))
                   (VStr (u "Strong backend profile")) /\
  displayed (events_of (main W s)) = [].
Proof.
  intros Hm.
  assert (Hj : json_loads (nesting_limit W) (int_digits_limit W) raw_full =
               Decoded (VDict full_dict))
    by (apply loads_base; vm_compute; reflexivity).
  split; [exact Hj|]. repeat (split; [reflexivity|]).
  destruct (main_displays Hm Hj) as (_ & Ho & Hd).
  split; [exact Ho | exact Hd].
Qed.

Lemma C5_full_response_witness :
  model_returned (world_answering raw_full) fresh raw_full /\
  output_signals (events_of (main (world_answering raw_full) fresh)) =
    result_signals (VStr (u "82%")) (VStr (u "Docker, Kubernetes"))
                   (VStr (u "Strong backend profile")).
Proof.
  assert (Hm : model_returned (world_answering raw_full) fresh raw_full)
    by sample_returned.
  pose proof (@C5_full_response (world_answering raw_full) fresh Hm)
    as (_ & _ & _ & _ & Ho & _).
  exact (conj Hm Ho).
Defined.

(** C6.  When the button is pressed while the job description is empty or
    no file was uploaded, the run displays exactly one validation warning
    and returns: it never assigns [True] to the guard, it calls neither the
    PDF extractor nor the prompt builder nor the model client, and it leaves
    the guard as it found it. *)
Theorem C6_validation_short_circuit W s :
  submitted W s ->
  text_area_input W = [] \/ file_uploader_input W = None ->
  completion_of (main W s) = Normal tt /\
  (exists m, displayed (events_of (main W s)) = [st_warning m]
             /\ (m = msg_no_jd \/ m = msg_no_resume)) /\
  ~ In (set_processing true) (events_of (main W s)) /\
  pipeline_calls (events_of (main W s)) = [] /\
  session_processing (state_of (main W s)) = Some (guard s).
Proof.
  intros Hs Hv. rewrite (main_submitted Hs). cbv zeta. rewrite on_click_eq.
  assert (E : match text_area_input W, file_uploader_input W with
              | [], _ => True
              | _ :: _, None => True
              | _ :: _, Some _ => False
              end).
  { destruct Hv as [-> | ->]; [exact I|]. destruct (text_area_input W); exact I. }
  destruct (text_area_input W) as [|c jd];
    [|destruct (file_uploader_input W) as [f|]; [contradiction|]];
    cbn [completion_of state_of events_of fst snd called];
    (split; [reflexivity|]);
    (split; [eexists; split; [rewrite displayed_page; reflexivity | tauto]|]);
    (split; [intros H; apply set_true_page in H; cbn in H; intuition discriminate|]);
    (split; [rewrite pipeline_calls_page; reflexivity | reflexivity]).
Qed.

Lemma C6_validation_short_circuit_witness :
  submitted world_no_jd fresh /\
  pipeline_calls (events_of (main world_no_jd fresh)) = [] /\
  ~ In (set_processing true) (events_of (main world_no_jd fresh)).
Proof.
  assert (Hs : submitted world_no_jd fresh) by (split; [find_event | reflexivity]).
  pose proof (@C6_validation_short_circuit world_no_jd fresh Hs (or_introl eq_refl))
    as (_ & _ & Hno & Hcalls & _).
  exact (conj Hs (conj Hcalls Hno)).
Defined.

(** C7.  [get_api_key] resolves the credential in priority order: when the
    secret store holds it, that value is returned whatever the environment
    says; when the lookup raises, the result is the environment variable as
    seen after loading the optional environment file (an existing variable
    wins over the file), or [None].  When neither source yields a
    credential, [main] displays [API Key not found. Please check your
    configuration.] and returns at once: the model client is neither
    configured nor called. *)
Theorem C7_credential_resolution W s :
  (forall v, secrets_GOOGLE_API_KEY W = Returns v ->
             completion_of (get_api_key W s) = Normal v) /\
  (forall e, secrets_GOOGLE_API_KEY W = Raises e ->
             completion_of (get_api_key W s) =
             Normal match env_credential W s with
                    | Some v => VStr v
                    | None => VNone
                    end) /\
  (forall e, secrets_GOOGLE_API_KEY W = Raises e ->
             env_credential W s = None ->
             completion_of (main W s) = Normal tt /\
             events_of (main W s) = init_events s ++ [st_error (Text msg_no_api_key)] /\
             displayed (events_of (main W s)) = [st_error (Text msg_no_api_key)] /\
             client_calls (events_of (main W s)) = []).
Proof.
  repeat split; try (intros; rewrite get_api_key_eq; unfold credential;
                     cbn [completion_of fst]; rewrite H; reflexivity).
  all: assert (Hk : truthy (credential W s) = false)
         by (unfold credential; rewrite H, H0; reflexivity);
       rewrite (main_no_credential _ _ Hk); cbn [completion_of events_of fst snd].
  - reflexivity.
  - reflexivity.
  - rewrite displayed_prologue. reflexivity.
  - rewrite client_calls_init. reflexivity.
Qed.

Lemma C7_credential_resolution_witness :
  completion_of (get_api_key (world_credentials (Returns (VStr (u "from-secrets")))
                                                (Some (u "from-dotenv"))) fresh)
    = Normal (VStr (u "from-secrets")) /\
  completion_of (get_api_key (world_credentials (Raises missing_secret)
                                                (Some (u "from-dotenv"))) fresh)
    = Normal (VStr (u "from-dotenv")) /\
  client_calls (events_of (main (world_credentials (Raises missing_secret) None) fresh)) = [].
Proof.
  refine (conj _ (conj _ _)).
  - exact (proj1 (@C7_credential_resolution
                    (world_credentials (Returns (VStr (u "from-secrets")))
                                       (Some (u "from-dotenv"))) fresh)
                 _ eq_refl).
  - exact (proj1 (proj2 (@C7_credential_resolution
                           (world_credentials (Raises missing_secret)
                                              (Some (u "from-dotenv"))) fresh))
                 _ eq_refl).
  - exact (proj2 (proj2 (proj2
             (proj2 (proj2 (@C7_credential_resolution
                              (world_credentials (Raises missing_secret) None) fresh))
                    _ eq_refl eq_refl)))).
Defined.

(** C8.  For every complete result, that is whenever the run emitted all
    three output signals for a decoded answer whose keywords field is a list
    of strings (the empty list, which is also the default, included), the
    keyword output signal is these strings joined with [, ] (the first
    string, then each further string behind a comma and a space) if the
    list is not empty, and the fixed text
    [No critical missing keywords found!] if it is empty; the other two
    signals are the score and the summary, and no message is displayed. *)
Theorem C8_keyword_signal W s r d ks :
  model_returned W s r ->
  json_loads (nesting_limit W) (int_digits_limit W) r = Decoded (VDict d) ->
  dict_get d key_keywords (VList []) = VList (map VStr ks) ->
  full_result (events_of (main W s)) ->
  output_signals (events_of (main W s)) =
    result_signals (dict_get d key_match (VStr (u "N/A")))
      (VStr match ks with
            | [] => msg_no_keywords
            | _ :: _ => joined_with (u ", ") ks
            end)
      (dict_get d key_summary (VStr msg_no_summary)) /\
  displayed (events_of (main W s)) = [].
Proof.
  intros Hm Hj Hkw (a & b & c & Hfull).
  destruct (main_displays Hm Hj) as (_ & Ho & Hd).
  rewrite Hd, Ho. rewrite Ho in Hfull. clear Ho Hd.
  rewrite Hkw in *.
  assert (Hk : keywords_text (VList (map VStr ks)) =
               Some match ks with
                    | [] => msg_no_keywords
                    | _ :: _ => joined_with (u ", ") ks
                    end).
  { unfold keywords_text. destruct ks as [|k ks]; [reflexivity|].
    change (truthy (VList (map VStr (k :: ks)))) with true. cbv iota.
    unfold join_value. rewrite all_str_map, join_joined_with. reflexivity. }
  unfold shown_signals, render_failure, shows_score in *. rewrite Hk in *.
  destruct (metric_accepts _); cbn [andb] in *; [|discriminate].
  destruct (displayable (dict_get d key_match _)); [|discriminate].
  destruct (encodable _); [|discriminate].
  destruct (displayable (dict_get d key_summary _)); [|discriminate].
  split; reflexivity.
Qed.

Lemma C8_keyword_signal_witness :
  model_returned (world_answering raw_full) fresh raw_full /\
  full_result (events_of (main (world_answering raw_full) fresh)) /\
  output_signals (events_of (main (world_answering raw_full) fresh)) =
    result_signals (VStr (u "82%")) (VStr (u "Docker, Kubernetes"))
                   (VStr (u "Strong backend profile")).
Proof.
  assert (Hm : model_returned (world_answering raw_full) fresh raw_full)
    by sample_returned.
  assert (Hj : json_loads (nesting_limit (world_answering raw_full))
                          (int_digits_limit (world_answering raw_full)) raw_full =
               Decoded (VDict full_dict)) by (vm_compute; reflexivity).
  assert (Hf : full_result (events_of (main (world_answering raw_full) fresh))).
  { exists (VStr (u "82%")), (VStr (u "Docker, Kubernetes")),
           (VStr (u "Strong backend profile")). vm_compute. reflexivity. }
  exact (conj Hm (conj Hf (proj1
           (@C8_keyword_signal (world_answering raw_full) fresh raw_full full_dict
              [u "Docker"; u "Kubernetes"] Hm Hj eq_refl Hf)))).
Defined.

(** C9, as the specification states it, fails.  In the answer
    [{MissingKeywords: <a string holding a lone surrogate>}] the field is
    present as a non-empty string.  Its characters are joined, but
    [st.write] cannot encode the text and raises: the run shows the score,
    no keyword text, and the generic error: the malformed field is
    rejected after all. *)
Lemma C9_counterexample :
  model_returned (world_answering raw_keywords_surrogate) fresh raw_keywords_surrogate /\
  json_loads (nesting_limit (world_answering raw_keywords_surrogate))
             (int_digits_limit (world_answering raw_keywords_surrogate))
             raw_keywords_surrogate = Decoded (VDict [(key_keywords, VStr [0xD800%N])]) /\
  output_signals (events_of (main (world_answering raw_keywords_surrogate) fresh)) =
    [st_metric (u "Match Score") (VStr (u "N/A"))] /\
  displayed (events_of (main (world_answering raw_keywords_surrogate) fresh)) =
    [st_error (TextExn msg_error_occurred (UnicodeEncodeError [0xD800%N]))].
Proof.
  split; [sample_returned|].
  repeat split; vm_compute; reflexivity.
Qed.

(** C9, amended.  When the score was shown and the key [MissingKeywords] is
    present, only the truth value of what it holds decides the rendering.
    For a falsy value (an empty list, an empty string, [null], and also
    zero, [false] or an empty object) the run writes the fixed
    no-missing-keywords text.  For a non-empty string that can be encoded
    (it holds no lone surrogate) the run writes the characters of the string
    joined with [, ]; for a non-empty string that cannot be encoded
    [st.write] raises and the run shows the generic error instead of the
    keywords.  In the first two cases the summary follows, and no message is
    displayed, if the summary can be written; otherwise the generic error
    is displayed instead of the summary. *)
Theorem C9_present_keywords W s r d v :
  model_returned W s r ->
  json_loads (nesting_limit W) (int_digits_limit W) r = Decoded (VDict d) ->
  dict_lookup d key_keywords = Some v ->
  let m := dict_get d key_match (VStr (u "N/A")) in
  let sm := dict_get d key_summary (VStr msg_no_summary) in
  shows_score m = true ->
  (truthy v = false ->
   output_signals (events_of (main W s)) =
     st_metric (u "Match Score") m :: st_write (VStr msg_no_keywords) ::
     (if displayable sm then [st_write sm] else []) /\
   displayed (events_of (main W s)) =
     if displayable sm then []
     else [st_error (TextExn msg_error_occurred (UnicodeEncodeError (text_of sm)))]) /\
  (forall c cs, v = VStr (c :: cs) ->
   let text := joined_with (u ", ") (map (fun x => [x]) (c :: cs)) in
   (encodable (c :: cs) = true ->
    output_signals (events_of (main W s)) =
      st_metric (u "Match Score") m :: st_write (VStr text) ::
      (if displayable sm then [st_write sm] else []) /\
    displayed (events_of (main W s)) =
      if displayable sm then []
      else [st_error (TextExn msg_error_occurred (UnicodeEncodeError (text_of sm)))]) /\
   (encodable (c :: cs) = false ->
    output_signals (events_of (main W s)) = [st_metric (u "Match Score") m] /\
    displayed (events_of (main W s)) =
      [st_error (TextExn msg_error_occurred (UnicodeEncodeError text))])).
Proof.
  intros Hm Hj Hl m sm Hs.
  assert (Hg : dict_get d key_keywords (VList []) = v) by (apply dict_get_present; exact Hl).
  destruct (main_displays Hm Hj) as (_ & Ho & Hd).
  fold m sm in Ho, Hd. rewrite Hg in Ho, Hd. rewrite Ho, Hd. clear Ho Hd.
  unfold shown_signals, render_failure. rewrite Hs.
  unfold shows_score in Hs. apply andb_prop in Hs. destruct Hs as [-> ->].
  split.
  - intros Hv. unfold keywords_text. rewrite Hv, no_keywords_encodable.
    destruct (displayable sm); split; reflexivity.
  - intros c cs ->. set (text := joined_with (u ", ") (map (fun x => [x]) (c :: cs))).
    assert (Hk : keywords_text (VStr (c :: cs)) = Some text).
    { unfold text. rewrite <- join_joined_with. reflexivity. }
    assert (He : encodable text = encodable (c :: cs)).
    { unfold text. rewrite <- join_joined_with. apply encodable_join_chars. }
    rewrite Hk, He. split; intros ->.
    + destruct (displayable sm); split; reflexivity.
    + split; reflexivity.
Qed.

Lemma C9_present_keywords_witness :
  (model_returned (world_answering raw_keywords_null) fresh raw_keywords_null /\
   output_signals (events_of (main (world_answering raw_keywords_null) fresh)) =
     result_signals (VStr (u "N/A")) (VStr msg_no_keywords) (VStr msg_no_summary)) /\
  (model_returned (world_answering raw_keywords_string) fresh raw_keywords_string /\
   output_signals (events_of (main (world_answering raw_keywords_string) fresh)) =
     result_signals (VStr (u "N/A")) (VStr (u "S, Q, L")) (VStr msg_no_summary)).
Proof.
  assert (Hn : model_returned (world_answering raw_keywords_null) fresh raw_keywords_null)
    by sample_returned.
  assert (Hs : model_returned (world_answering raw_keywords_string) fresh raw_keywords_string)
    by sample_returned.
  assert (Jn : json_loads (nesting_limit (world_answering raw_keywords_null))
                          (int_digits_limit (world_answering raw_keywords_null))
                          raw_keywords_null = Decoded (VDict [(key_keywords, VNone)]))
    by (vm_compute; reflexivity).
  assert (Js : json_loads (nesting_limit (world_answering raw_keywords_string))
                          (int_digits_limit (world_answering raw_keywords_string))
                          raw_keywords_string =
               Decoded (VDict [(key_keywords, VStr (u "SQL"))]))
    by (vm_compute; reflexivity).
  split.
  - exact (conj Hn (proj1 (proj1
             (@C9_present_keywords (world_answering raw_keywords_null) fresh
                raw_keywords_null [(key_keywords, VNone)] VNone Hn Jn eq_refl eq_refl)
             eq_refl))).
  - exact (conj Hs (proj1 (proj1 (proj2
             (@C9_present_keywords (world_answering raw_keywords_string) fresh
                raw_keywords_string [(key_keywords, VStr (u "SQL"))] (VStr (u "SQL"))
                Hs Js eq_refl eq_refl)
             83%N [81; 76]%N eq_refl) eq_refl))).
Defined.

(** C10.  A credential that is present but is the empty string, whether it
    comes from the secret store or from the environment variable, is
    handled exactly as a missing one: the test [if not api_key] is a truth
    test, so the run displays the same configuration error, produces the
    same events as a run without any credential, and neither configures nor
    calls the model client. *)
Theorem C10_empty_credential W s :
  secrets_GOOGLE_API_KEY W = Returns (VStr [])
  \/ ((exists e, secrets_GOOGLE_API_KEY W = Raises e) /\ env_credential W s = Some []) ->
  completion_of (main W s) = Normal tt /\
  events_of (main W s) = init_events s ++ [st_error (Text msg_no_api_key)] /\
  displayed (events_of (main W s)) = [st_error (Text msg_no_api_key)] /\
  client_calls (events_of (main W s)) = [].
Proof.
  intros H.
  assert (Hk : truthy (credential W s) = false).
  { unfold credential. destruct H as [-> | [[e ->] ->]]; reflexivity. }
  rewrite (main_no_credential _ _ Hk); cbn [completion_of events_of fst snd].
  repeat split.
  - rewrite displayed_prologue. reflexivity.
  - rewrite client_calls_init. reflexivity.
Qed.

Lemma C10_empty_credential_witness :
  events_of (main (world_credentials (Returns (VStr [])) (Some (u "from-dotenv"))) fresh)
    = init_events fresh ++ [st_error (Text msg_no_api_key)] /\
  events_of (main (world_credentials (Raises missing_secret) (Some [])) fresh)
    = init_events fresh ++ [st_error (Text msg_no_api_key)].
Proof.
  split.
  - exact (proj1 (proj2
             (@C10_empty_credential
                (world_credentials (Returns (VStr [])) (Some (u "from-dotenv"))) fresh
                (or_introl eq_refl)))).
  - exact (proj1 (proj2
             (@C10_empty_credential
                (world_credentials (Raises missing_secret) (Some [])) fresh
                (or_intror (conj (ex_intro _ missing_secret eq_refl) eq_refl))))).
Defined.

(* ================================================================= *)
(** ** Further properties of the script *)

Import Sessions.

(** X12.  At most one message.  Every run displays at most one error or
    warning and emits at most three output signals; a run that displays a
    message never emits the complete result. *)
Theorem X12_at_most_one_message W s :
  List.length (displayed (events_of (main W s))) <= 1 /\
  List.length (output_signals (events_of (main W s))) <= 3 /\
  (displayed (events_of (main W s)) <> [] ->
   List.length (output_signals (events_of (main W s))) < 3).
Proof.
  run_cases W s.
  all: past_prefix.
  all: cbn; repeat split; try lia; try congruence.
Qed.

Lemma X12_at_most_one_message_witness :
  displayed (events_of (main (world_answering raw_not_json) fresh)) <> [] /\
  List.length (output_signals (events_of (main (world_answering raw_not_json) fresh))) < 3.
Proof.
  assert (Hd : displayed (events_of (main (world_answering raw_not_json) fresh)) <> [])
    by (vm_compute; discriminate).
  exact (conj Hd (proj2 (proj2 (@X12_at_most_one_message (world_answering raw_not_json) fresh))
                        Hd)).
Defined.

(** Splits a membership hypothesis on an explicit log into its cases. *)
Ltac in_cases H :=
  unfold init_events, page_events in H;
  try match type of H with
      | context [session_processing ?s] => destruct (session_processing s)
      end;
  cbn [In app] in H;
  repeat (destruct H as [H|H]; [try discriminate|]);
  try contradiction.

Lemma main_leaves_guard W s :
  guard s = false -> session_processing (state_of (main W s)) = Some false.
Proof.
  intros Hg. run_cases W s; unfold ready, cleared; cbn [session_processing];
    rewrite ?Hg; reflexivity.
Qed.

Lemma main_buttons W s lbl d :
  In (st_button lbl d) (events_of (main W s)) -> d = guard s.
Proof.
  intros H. run_cases W s; in_cases H;
    try (inversion H; reflexivity);
    try (destruct (session_processing s); inversion H; reflexivity).
Qed.

(** X1.  The guard is never seen set.  In a session that starts with the
    guard clear (a new session, in particular), after any number of runs,
    whatever the inputs and the helpers do, the guard is clear again, and
    every button that was rendered received [disabled=False]: each run
    that sets [processing] resets it before it ends, and
    [init_session_state] only fills in a missing entry. *)
Theorem X1_button_never_disabled Ws :
  forall s, guard s = false ->
  guard (fst (reruns Ws s)) = false /\
  forall lbl d, In (st_button lbl d) (snd (reruns Ws s)) -> d = false.
Proof.
  induction Ws as [|W Ws IH]; intros s Hg.
  - split; [exact Hg | intros lbl d []].
  - cbn [reruns].
    assert (Hg' : guard (state_of (main W s)) = false).
    { unfold guard. rewrite (@main_leaves_guard W s Hg). reflexivity. }
    specialize (IH _ Hg'). destruct (reruns Ws (state_of (main W s))) as [s' l].
    cbn [fst snd] in *. destruct IH as [IH1 IH2]. split; [exact IH1|].
    intros lbl d Hin. apply in_app_or in Hin. destruct Hin as [Hin|Hin].
    + rewrite <- Hg. exact (@main_buttons W s lbl d Hin).
    + exact (IH2 _ _ Hin).
Qed.

Lemma X1_button_never_disabled_witness :
  guard fresh = false /\
  guard (fst (reruns [world_answering raw_full; world_interrupted; world_no_jd] fresh)) = false.
Proof.
  assert (Hg : guard fresh = false) by reflexivity.
  exact (conj Hg (proj1 (@X1_button_never_disabled
                           [world_answering raw_full; world_interrupted; world_no_jd]
                           fresh Hg))).
Defined.

(** X2.  No page without a configured client.  If a run renders any
    element of the page (sidebar, titles, text area, uploader, button), then
    the resolved credential is truthy, [configure_genai] was called with it
    and returned, and the run rendered the whole page, in order, right
    after that single call. *)
Theorem X2_page_needs_configured_client W s e :
  In e (events_of (main W s)) ->
  In e (page_events ++ [st_button (u "Analyze Resume") (guard s)]) ->
  truthy (credential W s) = true /\
  configure_genai W (credential W s) = Returns tt /\
  exists l, events_of (main W s) =
            init_events s ++ call_configure_genai (credential W s) :: page_events
              ++ st_button (u "Analyze Resume") (guard s) :: l.
Proof.
  intros Hin Hp.
  assert (Hno : ~ In e (init_events s)).
  { intros H. unfold init_events in H. destruct (session_processing s); [contradiction|].
    destruct H as [<-|[]]. in_cases Hp. }
  rewrite (main_eq W s) in *. cbv zeta in *.
  destruct (truthy (credential W s)).
  2:{ exfalso. cbn [events_of snd] in Hin. apply in_app_or in Hin.
      destruct Hin as [Hin|Hin]; [contradiction|].
      destruct Hin as [<-|[]]. in_cases Hp. }
  destruct (configure_genai W (credential W s)) as [[]|ce].
  2:{ exfalso. destruct (derives_Exception ce); cbn [events_of snd] in Hin;
      apply in_app_or in Hin; destruct Hin as [Hin|Hin]; try contradiction;
      cbn [In] in Hin; repeat (destruct Hin as [<-|Hin]; [in_cases Hp|]); contradiction. }
  repeat split.
  destruct (button_pressed W (guard s)).
  - destruct (on_click _ _ _ _) as [[c s2] l]. exists l. reflexivity.
  - exists []. reflexivity.
Qed.

Lemma X2_page_needs_configured_client_witness :
  In (st_text_area (u "Job Description")) (events_of (main world_idle fresh)) /\
  configure_genai world_idle (credential world_idle fresh) = Returns tt.
Proof.
  assert (Hin : In (st_text_area (u "Job Description")) (events_of (main world_idle fresh)))
    by find_event.
  assert (Hp : In (st_text_area (u "Job Description"))
                  (page_events ++ [st_button (u "Analyze Resume") (guard fresh)]))
    by find_event.
  exact (conj Hin (proj1 (proj2 (@X2_page_needs_configured_client world_idle fresh
                                   (st_text_area (u "Job Description")) Hin Hp)))).
Defined.

(** X3.  Without a click nothing is analysed.  When the button is not
    pressed, the run calls neither the extractor nor the prompt builder nor
    the model client, emits no output signal, never assigns [True] to the
    guard and leaves it as it found it; the only message it can display is a
    configuration error. *)
Theorem X3_no_click_no_pipeline W s :
  button_pressed W (guard s) = false ->
  pipeline_calls (events_of (main W s)) = [] /\
  output_signals (events_of (main W s)) = [] /\
  ~ In (set_processing true) (events_of (main W s)) /\
  session_processing (state_of (main W s)) = Some (guard s) /\
  forall e, In e (displayed (events_of (main W s))) -> kind_of e = Some ConfigurationError.
Proof.
  intros Hb. rewrite (main_eq W s). cbv zeta. rewrite Hb.
  destruct (truthy (credential W s));
    [destruct (configure_genai W (credential W s)) as [[]|ce];
     [|destruct (derives_Exception ce)]|];
    cbn [completion_of state_of events_of fst snd]; past_prefix;
    (repeat split; try reflexivity;
     [intros H; in_cases H | cbn; intros e H; repeat (destruct H as [<-|H]; [reflexivity|]); contradiction]).
Qed.

Lemma X3_no_click_no_pipeline_witness :
  button_pressed world_idle (guard fresh) = false /\
  pipeline_calls (events_of (main world_idle fresh)) = [].
Proof.
  assert (Hb : button_pressed world_idle (guard fresh) = false) by reflexivity.
  exact (conj Hb (proj1 (@X3_no_click_no_pipeline world_idle fresh Hb))).
Defined.

(** X4.  The data flow of the pipeline.  The extractor is only ever called
    on the uploaded file; the prompt builder only on the text the extractor
    returned and the job description of the text area; the model client
    only on the prompt the builder returned.  The three calls happen in this
    order, each at most once: a run never retries. *)
Theorem X4_pipeline_dataflow W s :
  (forall f, In (call_extract_pdf_text f) (events_of (main W s)) ->
             file_uploader_input W = Some f) /\
  (forall t jd, In (call_prepare_prompt t jd) (events_of (main W s)) ->
                jd = text_area_input W /\
                exists f, file_uploader_input W = Some f /\ extract_pdf_text W f = Returns t) /\
  (forall p, In (call_get_gemini_response p) (events_of (main W s)) ->
             exists f t, file_uploader_input W = Some f /\
                         extract_pdf_text W f = Returns t /\
                         prepare_prompt W t (text_area_input W) = Returns p) /\
  exists f t p n,
    pipeline_calls (events_of (main W s)) =
    firstn n [call_extract_pdf_text f; call_prepare_prompt t (text_area_input W);
              call_get_gemini_response p].
Proof.
  repeat split.
  - intros f0 H. run_cases W s; in_cases H; try (inversion H; subst; reflexivity).
  - run_cases W s; in_cases H; inversion H; subst; reflexivity.
  - run_cases W s; in_cases H; inversion H; subst; eauto.
  - intros p0 H. run_cases W s; in_cases H; inversion H; subst; eauto.
  - run_cases W s; past_prefix;
      first [ exists (Build_UploadedFile [] []), [], [], 0; reflexivity
            | eexists _, [], [], 1; reflexivity
            | eexists _, _, [], 2; cbn [firstn]; rewrite <- ?Hjd; reflexivity
            | eexists _, _, _, 3; cbn [firstn]; rewrite <- ?Hjd; reflexivity ].
Qed.

Lemma X4_pipeline_dataflow_witness :
  In (call_get_gemini_response sample_prompt)
     (events_of (main (world_answering raw_full) fresh)) /\
  exists f t, file_uploader_input (world_answering raw_full) = Some f /\
              extract_pdf_text (world_answering raw_full) f = Returns t /\
              prepare_prompt (world_answering raw_full) t
                (text_area_input (world_answering raw_full)) = Returns sample_prompt.
Proof.
  assert (Hin : In (call_get_gemini_response sample_prompt)
                   (events_of (main (world_answering raw_full) fresh)))
    by find_event.
  exact (conj Hin (proj1 (proj2 (proj2 (@X4_pipeline_dataflow (world_answering raw_full) fresh)))
                         sample_prompt Hin)).
Defined.

(** X5.  A failing PDF extraction ends the request.  When the button is
    pressed with both inputs present and [extract_pdf_text] raises an
    exception [e] deriving from [Exception], the run displays exactly
    [An error occurred: <e>], calls neither the prompt builder nor the model
    client, emits no output signal, clears the guard and returns. *)
Theorem X5_extraction_failure W s f e :
  submitted W s ->
  text_area_input W <> [] ->
  file_uploader_input W = Some f ->
  extract_pdf_text W f = Raises e ->
  derives_Exception e = true ->
  completion_of (main W s) = Normal tt /\
  displayed (events_of (main W s)) =
    [st_error (TextExn msg_error_occurred (External H_extract_pdf_text e))] /\
  pipeline_calls (events_of (main W s)) = [call_extract_pdf_text f] /\
  output_signals (events_of (main W s)) = [] /\
  session_processing (state_of (main W s)) = Some false.
Proof.
  intros Hs Hjd Hf Hx He. rewrite (main_submitted Hs). cbv zeta.
  rewrite on_click_eq, Hf.
  destruct (text_area_input W) as [|c jd]; [congruence|].
  cbv zeta. rewrite pipeline_eq, Hx.
  cbn [completion_of state_of events_of fst snd called handled handler_events is_Exception].
  rewrite He. past_prefix. repeat split.
Qed.

Lemma X5_extraction_failure_witness :
  submitted world_extract_fails fresh /\
  pipeline_calls (events_of (main world_extract_fails fresh))
    = [call_extract_pdf_text sample_file].
Proof.
  assert (Hs : submitted world_extract_fails fresh) by (split; [find_event | reflexivity]).
  assert (Hjd : text_area_input world_extract_fails <> []) by (vm_compute; discriminate).
  exact (conj Hs (proj1 (proj2 (proj2
           (@X5_extraction_failure world_extract_fails fresh sample_file unreadable_pdf
              Hs Hjd eq_refl eq_refl eq_refl))))).
Defined.

(** X6.  A failing model call ends the request.  When the model client
    raises an exception [e] deriving from [Exception], the run displays
    exactly [An error occurred: <e>]; the model client was called once, no
    success banner and no output signal is shown, and the guard is clear at
    the end. *)
Theorem X6_model_failure W s f t p e :
  submitted W s ->
  text_area_input W <> [] ->
  file_uploader_input W = Some f ->
  extract_pdf_text W f = Returns t ->
  prepare_prompt W t (text_area_input W) = Returns p ->
  get_gemini_response W p = Raises e ->
  derives_Exception e = true ->
  completion_of (main W s) = Normal tt /\
  displayed (events_of (main W s)) =
    [st_error (TextExn msg_error_occurred (External H_get_gemini_response e))] /\
  pipeline_calls (events_of (main W s)) =
    [call_extract_pdf_text f; call_prepare_prompt t (text_area_input W);
     call_get_gemini_response p] /\
  output_signals (events_of (main W s)) = [] /\
  ~ In (st_success msg_complete) (events_of (main W s)) /\
  session_processing (state_of (main W s)) = Some false.
Proof.
  intros Hs Hjd Hf Hx Hp Hm He. rewrite (main_submitted Hs). cbv zeta.
  rewrite on_click_eq, Hf.
  destruct (text_area_input W) as [|c jd]; [congruence|].
  cbv zeta. rewrite pipeline_eq, Hx, Hp, Hm.
  cbn [completion_of state_of events_of fst snd called handled handler_events is_Exception].
  rewrite He. past_prefix. repeat split.
  intros H. in_cases H.
Qed.

Lemma X6_model_failure_witness :
  submitted world_model_fails fresh /\
  displayed (events_of (main world_model_fails fresh)) =
    [st_error (TextExn msg_error_occurred (External H_get_gemini_response quota_exceeded))].
Proof.
  assert (Hs : submitted world_model_fails fresh) by (split; [find_event | reflexivity]).
  assert (Hjd : text_area_input world_model_fails <> []) by (vm_compute; discriminate).
  exact (conj Hs (proj1 (proj2
           (@X6_model_failure world_model_fails fresh sample_file (u "resume text")
              sample_prompt quota_exceeded Hs Hjd eq_refl eq_refl eq_refl eq_refl eq_refl)))).
Defined.

Lemma main_events_returned W s r :
  model_returned W s r ->
  exists pre,
    events_of (main W s) =
    pre ++ events_of (handle_response W r s) ++ spinner_exit ::
      handler_events (completion_of (handle_response W r s)) ++ [set_processing false].
Proof.
  intros Hm. apply model_returned_reaches in Hm. destruct Hm as (f & t & p & Hm).
  rewrite (main_reaches Hm). cbv zeta.
  destruct (handle_response_indep W r s (armed (ready W s))) as [Hc He].
  rewrite <- Hc, <- He. cbn [events_of snd].
  eexists (init_events s ++ call_configure_genai (credential W s) :: page_events ++
           [st_button (u "Analyze Resume") (guard s); set_processing true;
            spinner_enter msg_spinner; call_extract_pdf_text f;
            call_prepare_prompt t (text_area_input W); call_get_gemini_response p]).
  rewrite <- !app_assoc. cbn [app]. rewrite <- !app_assoc. reflexivity.
Qed.

(** X7.  An answer that decodes to something other than an object.  When
    [json.loads] returns a value that is not a dict, the success banner is
    displayed before any field is read, so the run shows
    [Analysis Complete!] and then the generic error carrying the
    [AttributeError] of the missing [get] method; no output signal is
    emitted. *)
Theorem X7_non_object_answer W s r v :
  model_returned W s r ->
  json_loads (nesting_limit W) (int_digits_limit W) r = Decoded v ->
  (forall d, v <> VDict d) ->
  completion_of (main W s) = Normal tt /\
  In (st_success msg_complete) (events_of (main W s)) /\
  displayed (events_of (main W s)) =
    [st_error (TextExn msg_error_occurred (AttributeError v (u "get")))] /\
  output_signals (events_of (main W s)) = [].
Proof.
  intros Hm Hj Hv.
  assert (Hh : handle_response W r s =
               (Raise (AttributeError v (u "get")), s, [st_success msg_complete])).
  { rewrite handle_response_eq, Hj, display_results_eq.
    destruct v; try reflexivity. exfalso. eapply Hv. reflexivity. }
  destruct (main_observed Hm) as (Hc & _ & Hd & Ho).
  destruct (main_events_returned Hm) as (pre & Hev).
  rewrite Hh in *. repeat split; try assumption.
  rewrite Hev. apply in_or_app. right. left. reflexivity.
Qed.

Lemma X7_non_object_answer_witness :
  model_returned (world_answering raw_array) fresh raw_array /\
  In (st_success msg_complete) (events_of (main (world_answering raw_array) fresh)) /\
  displayed (events_of (main (world_answering raw_array) fresh)) =
    [st_error (TextExn msg_error_occurred (AttributeError (VList []) (u "get")))].
Proof.
  assert (Hm : model_returned (world_answering raw_array) fresh raw_array)
    by sample_returned.
  assert (Hj : json_loads (nesting_limit (world_answering raw_array))
                          (int_digits_limit (world_answering raw_array)) raw_array =
               Decoded (VList [])) by (vm_compute; reflexivity).
  assert (Hv : forall d, VList [] <> VDict d) by (intros d; discriminate).
  pose proof (@X7_non_object_answer (world_answering raw_array) fresh raw_array (VList [])
                Hm Hj Hv) as (_ & Hb & Hd & _).
  exact (conj Hm (conj Hb Hd)).
Defined.

(** X8.  A keywords field that cannot be joined.  When [json.loads]
    returns an object whose score [st.metric] shows and whose
    [MissingKeywords] is truthy and rejected by [str.join] (a non-zero
    number, [true], a list with an item that is not a string), the match
    score is displayed, then the [TypeError] is reported by the generic
    handler: the keywords and the summary are never written. *)
Theorem X8_unrenderable_keywords W s r d :
  model_returned W s r ->
  json_loads (nesting_limit W) (int_digits_limit W) r = Decoded (VDict d) ->
  let m := dict_get d key_match (VStr (u "N/A")) in
  let kw := dict_get d key_keywords (VList []) in
  shows_score m = true ->
  truthy kw = true ->
  join_value (u ", ") kw = None ->
  completion_of (main W s) = Normal tt /\
  output_signals (events_of (main W s)) = [st_metric (u "Match Score") m] /\
  displayed (events_of (main W s)) =
    [st_error (TextExn msg_error_occurred (TypeError_join kw))].
Proof.
  intros Hm Hj m kw Ha Ht Hn.
  destruct (main_displays Hm Hj) as (Hc & Ho & Hd).
  fold m kw in Ho, Hd. rewrite Ho, Hd.
  unfold shown_signals, render_failure, keywords_text. rewrite Ha, Ht, Hn.
  unfold shows_score in Ha. apply andb_prop in Ha. destruct Ha as [-> ->].
  repeat split. exact Hc.
Qed.

Lemma X8_unrenderable_keywords_witness :
  model_returned (world_answering raw_keywords_number) fresh raw_keywords_number /\
  output_signals (events_of (main (world_answering raw_keywords_number) fresh)) =
    [st_metric (u "Match Score") (VStr (u "N/A"))] /\
  displayed (events_of (main (world_answering raw_keywords_number) fresh)) =
    [st_error (TextExn msg_error_occurred (TypeError_join (VInt 5)))].
Proof.
  assert (Hm : model_returned (world_answering raw_keywords_number) fresh raw_keywords_number)
    by sample_returned.
  assert (Hj : json_loads (nesting_limit (world_answering raw_keywords_number))
                          (int_digits_limit (world_answering raw_keywords_number))
                          raw_keywords_number = Decoded (VDict [(key_keywords, VInt 5)]))
    by (vm_compute; reflexivity).
  exact (conj Hm (proj2
           (@X8_unrenderable_keywords (world_answering raw_keywords_number) fresh
              raw_keywords_number [(key_keywords, VInt 5)] Hm Hj eq_refl eq_refl eq_refl))).
Defined.

Lemma blank_not_json depth lim r :
  skip_ws r = [] -> json_loads depth lim r = Raised NotJSON.
Proof.
  intros Hb. unfold json_loads, decode. rewrite Hb.
  destruct r as [|c r']; [reflexivity|].
  unfold fuel_for. cbn [List.length Nat.mul Nat.add scan_once].
  repeat (break_match; try reflexivity); congruence.
Qed.

(** X9.  An empty or blank answer.  When the model client returns a text
    made of JSON whitespace only (the empty text included), the run
    displays the parse error and emits no output signal. *)
Theorem X9_blank_answer W s r :
  model_returned W s r ->
  skip_ws r = [] ->
  completion_of (main W s) = Normal tt /\
  displayed (events_of (main W s)) = [st_error (Text msg_parse_error)] /\
  output_signals (events_of (main W s)) = [].
Proof.
  intros Hm Hb.
  pose proof (blank_not_json (nesting_limit W) (int_digits_limit W) r Hb) as Hj.
  destruct (main_observed Hm) as (Hc & _ & Hd & Ho).
  rewrite handle_response_eq, Hj in Hd, Ho.
  repeat split; assumption.
Qed.

Lemma X9_blank_answer_witness :
  model_returned (world_answering raw_blank) fresh raw_blank /\
  skip_ws raw_blank = [] /\
  displayed (events_of (main (world_answering raw_blank) fresh))
    = [st_error (Text msg_parse_error)].
Proof.
  assert (Hm : model_returned (world_answering raw_blank) fresh raw_blank)
    by sample_returned.
  assert (Hb : skip_ws raw_blank = []) by reflexivity.
  exact (conj Hm (conj Hb (proj1 (proj2
           (@X9_blank_answer (world_answering raw_blank) fresh raw_blank Hm Hb))))).
Defined.

Lemma credential_ready W s : credential W (ready W s) = credential W s.
Proof.
  unfold credential, ready, after_key, env_credential.
  destruct (secrets_GOOGLE_API_KEY W); [reflexivity|].
  cbn [environ_GOOGLE_API_KEY].
  destruct (environ_GOOGLE_API_KEY s); [reflexivity|].
  destruct (dotenv_GOOGLE_API_KEY W); reflexivity.
Qed.

Lemma ready_ready W s : ready W (ready W s) = ready W s.
Proof.
  unfold ready, after_key, env_credential, guard. cbn [session_processing].
  destruct (secrets_GOOGLE_API_KEY W) as [v|e]; [destruct (exported W v); reflexivity|].
  cbn [environ_GOOGLE_API_KEY].
  destruct (environ_GOOGLE_API_KEY s); [reflexivity|].
  destruct (dotenv_GOOGLE_API_KEY W); reflexivity.
Qed.

Lemma main_state W s :
  guard s = false -> state_of (main W s) = ready W s.
Proof.
  intros Hg.
  assert (Hc : cleared (ready W s) = ready W s).
  { unfold cleared, ready. rewrite Hg. reflexivity. }
  run_cases W s; rewrite ?Hc; reflexivity.
Qed.

(** X10.  Running again reproduces the run.  From a state with the guard
    clear, a second run with the same inputs and the same helper behaviour
    completes as the first one, leaves the same state, and produces the
    same events (the first run of a session additionally records the
    creation of the [processing] entry). *)
Theorem X10_rerun_reproduces W s :
  guard s = false ->
  let again := main W (state_of (main W s)) in
  completion_of again = completion_of (main W s) /\
  state_of again = state_of (main W s) /\
  events_of (main W s) = init_events s ++ events_of again.
Proof.
  intros Hg. cbv zeta. rewrite (@main_state W s Hg).
  assert (Hg' : guard (ready W s) = guard s) by reflexivity.
  assert (Hst : state_of (main W (ready W s)) = ready W s).
  { rewrite main_state; [apply ready_ready | rewrite Hg'; exact Hg]. }
  split; [|split; [exact Hst|]].
  all: rewrite (main_eq W (ready W s)), (main_eq W s); cbv zeta;
       rewrite credential_ready, ready_ready, Hg';
       change (init_events (ready W s)) with (@nil event);
       (destruct (truthy (credential W s)); [|reflexivity]);
       (destruct (configure_genai W (credential W s)) as [[]|e];
        [|destruct (derives_Exception e); reflexivity]);
       (destruct (button_pressed W (guard s)); [|reflexivity]);
       destruct (on_click _ _ _ _) as [[c s2] l]; reflexivity.
Qed.

Lemma X10_rerun_reproduces_witness :
  guard fresh = false /\
  events_of (main (world_answering raw_full) fresh) =
    init_events fresh ++
    events_of (main (world_answering raw_full)
                    (state_of (main (world_answering raw_full) fresh))).
Proof.
  assert (Hg : guard fresh = false) by reflexivity.
  exact (conj Hg (proj2 (proj2 (@X10_rerun_reproduces (world_answering raw_full) fresh Hg)))).
Defined.



(** X13.  The order of the validation checks.  When the button is pressed
    with an empty job description the warning shown is the one about the job
    description, whether or not a file was uploaded; the warning about the
    resume is shown only when the job description is present and the file is
    missing. *)
Theorem X13_validation_order W s :
  submitted W s ->
  (text_area_input W = [] ->
   displayed (events_of (main W s)) = [st_warning msg_no_jd]) /\
  (text_area_input W <> [] -> file_uploader_input W = None ->
   displayed (events_of (main W s)) = [st_warning msg_no_resume]).
Proof.
  intros Hs. rewrite (main_submitted Hs). cbv zeta. rewrite on_click_eq.
  split.
  - intros ->. cbn [events_of snd]. past_prefix. reflexivity.
  - intros Hjd ->. destruct (text_area_input W); [congruence|].
    cbn [events_of snd]. past_prefix. reflexivity.
Qed.

Lemma X13_validation_order_witness :
  (submitted world_no_jd fresh /\
   displayed (events_of (main world_no_jd fresh)) = [st_warning msg_no_jd]) /\
  (submitted world_no_file fresh /\
   displayed (events_of (main world_no_file fresh)) = [st_warning msg_no_resume]).
Proof.
  assert (H1 : submitted world_no_jd fresh) by (split; [find_event | reflexivity]).
  assert (H2 : submitted world_no_file fresh) by (split; [find_event | reflexivity]).
  assert (Hjd : text_area_input world_no_file <> []) by (vm_compute; discriminate).
  exact (conj (conj H1 (proj1 (@X13_validation_order world_no_jd fresh H1) eq_refl))
              (conj H2 (proj2 (@X13_validation_order world_no_file fresh H2) Hjd eq_refl))).
Defined.

(** X14.  When the pipeline starts.  A run assigns [True] to the guard if
    and only if the button was rendered and pressed, the job description is
    not empty and a file was uploaded.  Nothing else is checked: a job
    description made of blanks is accepted. *)
Theorem X14_pipeline_starts_iff W s :
  In (set_processing true) (events_of (main W s)) <->
  submitted W s /\ text_area_input W <> [] /\ file_uploader_input W <> None.
Proof.
  split.
  - intros H. unfold submitted.
    run_cases W s; try (exfalso; in_cases H; fail);
      (split; [split; [|reflexivity] | split; discriminate]);
      unfold init_events, page_events;
      destruct (session_processing s); cbn [In app]; tauto.
  - intros (Hs & Hjd & Hf). rewrite (main_submitted Hs). cbv zeta. rewrite on_click_eq.
    destruct (text_area_input W); [congruence|].
    destruct (file_uploader_input W); [|congruence].
    cbv zeta. cbn [events_of snd]. apply in_or_app. right. right.
    apply in_or_app. right. right. left. reflexivity.
Qed.

Lemma X14_pipeline_starts_iff_witness :
  In (set_processing true) (events_of (main (world_answering raw_full) fresh)) /\
  submitted (world_answering raw_full) fresh.
Proof.
  assert (Hin : In (set_processing true) (events_of (main (world_answering raw_full) fresh)))
    by find_event.
  exact (conj Hin (proj1 (proj1 (@X14_pipeline_starts_iff (world_answering raw_full) fresh)
                                Hin))).
Defined.

Lemma spinner_prologue s l :
  filter is_spinner (init_events s ++ l) = filter is_spinner l.
Proof. unfold init_events. destruct (session_processing s); reflexivity. Qed.

(** X15.  The spinner is always closed.  A run either never opens the
    spinner and never sets the guard, or it sets the guard and opens the
    spinner exactly once and closes it exactly once, however the pipeline
    ends. *)
Theorem X15_spinner_closed W s :
  (filter is_spinner (events_of (main W s)) = []
   /\ ~ In (set_processing true) (events_of (main W s)))
  \/ (filter is_spinner (events_of (main W s)) = [spinner_enter msg_spinner; spinner_exit]
      /\ In (set_processing true) (events_of (main W s))).
Proof.
  run_cases W s; rewrite spinner_prologue;
    first [ left; split; [reflexivity | intros H; in_cases H]
          | right; split; [reflexivity|];
            apply in_or_app; right; right; apply in_or_app; right; right; left; reflexivity ].
Qed.

(** X16.  A rejected configuration.  When the credential is truthy and
    [configure_genai] raises an exception [e] deriving from [Exception], the
    run displays [Failed to configure API: <e>] and returns: these are its
    only events besides the call itself, so no page element is rendered
    and the guard is left as it was. *)
Theorem X16_configuration_rejected W s e :
  truthy (credential W s) = true ->
  configure_genai W (credential W s) = Raises e ->
  derives_Exception e = true ->
  completion_of (main W s) = Normal tt /\
  events_of (main W s) =
    init_events s ++
    [call_configure_genai (credential W s);
     st_error (TextExn msg_configure_failed (External H_configure_genai e))] /\
  session_processing (state_of (main W s)) = Some (guard s).
Proof.
  intros Hk Hc He. rewrite (main_eq W s). cbv zeta. rewrite Hk, Hc, He.
  repeat split.
Qed.

Lemma X16_configuration_rejected_witness :
  truthy (credential world_configure_fails fresh) = true /\
  events_of (main world_configure_fails fresh) =
    init_events fresh ++
    [call_configure_genai (credential world_configure_fails fresh);
     st_error (TextExn msg_configure_failed (External H_configure_genai invalid_key))].
Proof.
  assert (Hk : truthy (credential world_configure_fails fresh) = true) by reflexivity.
  exact (conj Hk (proj1 (proj2
           (@X16_configuration_rejected world_configure_fails fresh invalid_key
              Hk eq_refl eq_refl)))).
Defined.

(** X17.  A keywords field that is an object.  [str.join] iterates a
    dict by its keys, so a non-empty object under [MissingKeywords] is
    rendered as its keys joined with [, ]; when the score, this text and the
    summary can all be shown, the run emits the three signals without any
    error. *)
Theorem X17_keywords_object W s r d k v rest :
  model_returned W s r ->
  json_loads (nesting_limit W) (int_digits_limit W) r = Decoded (VDict d) ->
  dict_lookup d key_keywords = Some (VDict ((k, v) :: rest)) ->
  shows_score (dict_get d key_match (VStr (u "N/A"))) = true ->
  encodable (joined_with (u ", ") (k :: map fst rest)) = true ->
  displayable (dict_get d key_summary (VStr msg_no_summary)) = true ->
  output_signals (events_of (main W s)) =
    result_signals (dict_get d key_match (VStr (u "N/A")))
                   (VStr (joined_with (u ", ") (k :: map fst rest)))
                   (dict_get d key_summary (VStr msg_no_summary)) /\
  displayed (events_of (main W s)) = [].
Proof.
  intros Hm Hj Hl Ha He Hs.
  assert (Hk : keywords_text (dict_get d key_keywords (VList []))
               = Some (joined_with (u ", ") (k :: map fst rest))).
  { rewrite (dict_get_present _ _ _ Hl), <- join_joined_with. reflexivity. }
  destruct (main_displays_all Hm Hj Ha Hk He Hs) as (_ & Ho & Hd). split; assumption.
Qed.

Lemma X17_keywords_object_witness :
  model_returned (world_answering raw_keywords_object) fresh raw_keywords_object /\
  output_signals (events_of (main (world_answering raw_keywords_object) fresh)) =
    result_signals (VStr (u "N/A")) (VStr (u "Go, SQL")) (VStr msg_no_summary).
Proof.
  assert (Hm : model_returned (world_answering raw_keywords_object) fresh raw_keywords_object)
    by sample_returned.
  assert (Hj : json_loads (nesting_limit (world_answering raw_keywords_object))
                          (int_digits_limit (world_answering raw_keywords_object))
                          raw_keywords_object =
               Decoded (VDict [(key_keywords, VDict [(u "Go", VInt 1); (u "SQL", VInt 2)])]))
    by (vm_compute; reflexivity).
  exact (conj Hm (proj1
           (@X17_keywords_object (world_answering raw_keywords_object) fresh
              raw_keywords_object
              [(key_keywords, VDict [(u "Go", VInt 1); (u "SQL", VInt 2)])]
              (u "Go") (VInt 1) [(u "SQL", VInt 2)] Hm Hj eq_refl eq_refl eq_refl eq_refl))).
Defined.

(** X18.  An answer beyond the limits of the interpreter.  When
    [json.loads] raises a [RecursionError] (the answer nests deeper than
    the interpreter follows) or a [ValueError] (an integer literal has more
    digits than the interpreter converts), [except json.JSONDecodeError]
    does not catch it: the generic handler displays
    [An error occurred: ...], the success banner and the output signals are
    not shown, and the guard is cleared. *)
Theorem X18_answer_beyond_limits W s r f :
  model_returned W s r ->
  json_loads (nesting_limit W) (int_digits_limit W) r = Raised f ->
  f <> NotJSON ->
  completion_of (main W s) = Normal tt /\
  displayed (events_of (main W s)) = [st_error (TextExn msg_error_occurred (exn_of f))] /\
  output_signals (events_of (main W s)) = [] /\
  ~ In (st_success msg_complete) (events_of (main W s)) /\
  session_processing (state_of (main W s)) = Some false.
Proof.
  intros Hm Hj Hf.
  assert (Hh : handle_response W r s = (Raise (exn_of f), s, [])).
  { rewrite handle_response_eq, Hj. destruct f; [congruence | reflexivity ..]. }
  destruct (main_observed Hm) as (Hc & Hs & Hd & Ho).
  destruct (main_events_returned Hm) as (pre & Hev).
  apply model_returned_reaches in Hm. destruct Hm as (f0 & t & p & Hm).
  rewrite Hh in *. cbn [completion_of events_of fst snd] in *.
  assert (Hx : is_Exception (exn_of f) = true) by (destruct f; reflexivity).
  cbn [handler_events] in Hd, Hev. rewrite Hx in Hd, Hev.
  repeat split; try assumption.
  - intros Hin. rewrite (main_reaches Hm) in Hin. cbv zeta in Hin.
    destruct (handle_response_indep W r s (armed (ready W s))) as [Hc' He'].
    rewrite <- Hc', <- He', Hh in Hin.
    cbn [completion_of events_of fst snd handler_events] in Hin. rewrite Hx in Hin.
    in_cases Hin.
  - rewrite Hs. reflexivity.
Qed.

Lemma X18_answer_beyond_limits_witness :
  model_returned (world_answering raw_deep) fresh raw_deep /\
  displayed (events_of (main (world_answering raw_deep) fresh)) =
    [st_error (TextExn msg_error_occurred RecursionError)].
Proof.
  assert (Hm : model_returned (world_answering raw_deep) fresh raw_deep)
    by sample_returned.
  assert (Hj : json_loads (nesting_limit (world_answering raw_deep))
                          (int_digits_limit (world_answering raw_deep)) raw_deep =
               Raised TooDeep) by (vm_compute; reflexivity).
  assert (Hf : TooDeep <> NotJSON) by discriminate.
  exact (conj Hm (proj1 (proj2
           (@X18_answer_beyond_limits (world_answering raw_deep) fresh raw_deep TooDeep
              Hm Hj Hf)))).
Defined.

(** X19.  A summary that cannot be encoded.  When the score and the
    keywords were shown and the summary is a string holding a lone
    surrogate, [st.write] raises on it: the run has emitted two of the
    three output signals and displays the generic error. *)
Theorem X19_unencodable_summary W s r d text :
  model_returned W s r ->
  json_loads (nesting_limit W) (int_digits_limit W) r = Decoded (VDict d) ->
  let m := dict_get d key_match (VStr (u "N/A")) in
  let kw := dict_get d key_keywords (VList []) in
  let sm := dict_get d key_summary (VStr msg_no_summary) in
  shows_score m = true ->
  keywords_text kw = Some text ->
  encodable text = true ->
  displayable sm = false ->
  completion_of (main W s) = Normal tt /\
  output_signals (events_of (main W s)) =
    [st_metric (u "Match Score") m; st_write (VStr text)] /\
  displayed (events_of (main W s)) =
    [st_error (TextExn msg_error_occurred (UnicodeEncodeError (text_of sm)))].
Proof.
  intros Hm Hj m kw sm Ha Hk He Hs.
  destruct (main_displays Hm Hj) as (Hc & Ho & Hd).
  fold m kw sm in Ho, Hd. rewrite Ho, Hd.
  unfold shown_signals, render_failure. rewrite Ha, Hk, He, Hs.
  unfold shows_score in Ha. apply andb_prop in Ha. destruct Ha as [-> ->].
  repeat split. exact Hc.
Qed.

Lemma X19_unencodable_summary_witness :
  model_returned (world_answering raw_summary_surrogate) fresh raw_summary_surrogate /\
  output_signals (events_of (main (world_answering raw_summary_surrogate) fresh)) =
    [st_metric (u "Match Score") (VStr (u "N/A")); st_write (VStr msg_no_keywords)] /\
  displayed (events_of (main (world_answering raw_summary_surrogate) fresh)) =
    [st_error (TextExn msg_error_occurred (UnicodeEncodeError [0xD800%N]))].
Proof.
  assert (Hm : model_returned (world_answering raw_summary_surrogate) fresh
                 raw_summary_surrogate) by sample_returned.
  assert (Hj : json_loads (nesting_limit (world_answering raw_summary_surrogate))
                          (int_digits_limit (world_answering raw_summary_surrogate))
                          raw_summary_surrogate =
               Decoded (VDict [(key_summary, VStr [0xD800%N])]))
    by (vm_compute; reflexivity).
  exact (conj Hm (proj2
           (@X19_unencodable_summary (world_answering raw_summary_surrogate) fresh
              raw_summary_surrogate [(key_summary, VStr [0xD800%N])] msg_no_keywords
              Hm Hj eq_refl eq_refl eq_refl eq_refl))).
Defined.
